(** * mycroft-skills-kit: the upgrade coordinator

    A shallow embedding of [msk/actions/upgrade.py] (class [UpgradeAction])
    and [msk/repo_action.py] (classes [RepoData] and [SkillData]).

    The version-control engine (GitPython), the skills manager (msm) and the
    hosting API (PyGithub) are external collaborators.  Every call into them
    is an event: the collaborator is an oracle that answers a call from the
    history of calls made so far, and a run records the calls it made
    together with their answers. *)

From Stdlib Require Import String Ascii List ZArith Lia Bool.
From stdpp Require Import base gmap strings list.
Import ListNotations.
Open Scope string_scope.

(** ** Python strings *)

Module Py.

(** The newline character, written ['\n'] in the source. *)
Definition nl_char : ascii := "010"%char.
Definition nl : string := String nl_char EmptyString.

(** [s.split(c)] for a one-character separator: the pieces between the
    separators, always at least one piece. *)
Fixpoint split (c : ascii) (s : string) : list string :=
  match s with
  | EmptyString => [EmptyString]
  | String a s' =>
      if Ascii.eqb a c then EmptyString :: split c s'
      else match split c s' with
           | [] => [String a EmptyString]
           | w :: ws => String a w :: ws
           end
  end.

(** [sep.join(l)] *)
Definition join (sep : string) (l : list string) : string :=
  String.concat sep l.

(** [needle in hay] on strings: substring test. *)
Fixpoint str_in (needle hay : string) : bool :=
  if String.prefix needle hay then true
  else match hay with
       | EmptyString => false
       | String _ hay' => str_in needle hay'
       end.

(** [x in l] on a list of strings. *)
Definition list_in (x : string) (l : list string) : bool :=
  existsb (String.eqb x) l.

(** Truth value of a string: the empty string is false. *)
Definition truthy (s : string) : bool :=
  match s with EmptyString => false | String _ _ => true end.

Definition starts_with_sep (s : string) : bool :=
  match s with String "/"%char _ => true | _ => false end.

Fixpoint ends_with_sep (s : string) : bool :=
  match s with
  | EmptyString => false
  | String a EmptyString => Ascii.eqb a "/"%char
  | String _ s' => ends_with_sep s'
  end.

(** [os.path.join(a, b)] of posixpath, for two components. *)
Definition path_join (a b : string) : string :=
  if starts_with_sep b then b
  else if negb (truthy a) || ends_with_sep a then a ++ b
  else a ++ "/" ++ b.

End Py.

(** ** Data *)

Module msm.

(** [msm.SkillEntry]: the plugin being upgraded. *)
Record SkillEntry := {
name : string;
url : string;
author : string;
path : string;
sha : string;
is_local : bool
}.

(** [msm.SkillRepo]: the registry working copy. *)
Record SkillRepo := {
repo_path : string;
repo_url : string
}.

End msm.
Export msm.

(** One element of [SkillRepo.get_skill_data()]: (name, path, url, sha). *)
Definition SkillTuple : Type := string * string * string * string.

Module github.

(** [github.Repository] *)
Record Repository := {
full_name : string;
default_branch : string;
repo_html_url : string
}.

(** [github.NamedUser] / [github.AuthenticatedUser] *)
Record User := { login : string }.

(** [github.PullRequest].  [body] is [None] for a pull request that has no
    description. *)
Record PullRequest := {
number : nat;
pr_title : string;
body : option string;
pr_html_url : string
}.

(** [github.Commit] *)
Record Commit := { html_url : string }.

End github.
Export github.

(** ** Exceptions *)

(** Failures of the collaborators.  [GitCommandError] is the one the source
    names; anything else a collaborator raises is [OtherFailure]. *)
Inductive Failure :=
| GitCommandError
| OtherFailure (what : string).

(** What a run of the program can raise: the three exceptions of
    [msk.exceptions], each with its message, a collaborator's failure
    passing through, or the [TypeError] that Python raises for [x in None]
    (its message is the interpreter's own and is left out). *)
Inductive Exn :=
| NotUploaded (msg : string)
| AlreadyUpdated (msg : string)
| PRModified (msg : string)
| External (f : Failure)
| TypeError.

Definition is_AlreadyUpdated (e : Exn) : bool :=
  match e with AlreadyUpdated _ => true | _ => false end.
Definition is_NotUploaded (e : Exn) : bool :=
  match e with NotUploaded _ => true | _ => false end.
Definition is_PRModified (e : Exn) : bool :=
  match e with PRModified _ => true | _ => false end.

(** ** Calls into the collaborators *)

(** A call and the type of what it returns.  [git wd argv] is a command run
    by the GitPython object [Git(wd)]: [g.branch('-D', b)] is
    [git wd ["branch"; "-D"; b]], a keyword argument becomes an option placed
    before the positional arguments, and the result is the command's
    output. *)
Inductive Call : Type -> Type :=
| repo_update (r : SkillRepo) : Call unit
| repo_get_skill_data (r : SkillRepo) : Call (list SkillTuple)
| git (wd : string) (argv : list string) : Call string
| chdir (dir : string) : Call unit
| subprocess_call (argv : list string) (cwd : option string) : Call Z
| print (line : string) : Call unit
| ask_for_github_credentials : Call unit
| github_get_repo (full : string) : Call Repository
| github_get_user : Call User
| extract_repo_name (skill : SkillEntry) (u : string) : Call string
| create_fork (user : User) (r : Repository) : Call Repository
| get_pulls (r : Repository) (base head : string) : Call (list PullRequest)
| create_pull (r : Repository) (title body base head : string) : Call PullRequest
| pull_edit (p : PullRequest) (title body : string) : Call unit
| get_commit (r : Repository) (sha : string) : Call Commit.

(** One recorded interaction: the call and its answer. *)
Inductive Event :=
| Ev {X : Type} (c : Call X) (r : Failure + X).

(** The collaborators: the answer to a call, given what happened before. *)
Definition Env : Type := forall X : Type, list Event -> Call X -> Failure + X.

(** ** The state of a run *)

(** The calls made so far, oldest first, and the two memoized properties of
    [SkillData] whose first computation can be observed. *)
Record St := {
  trace : list Event;
  lazy_submodule_name : option string;
  lazy_repo_git : option string
}.

Definition st0 : St :=
  {| trace := []; lazy_submodule_name := None; lazy_repo_git := None |}.

Definition log (e : Event) (s : St) : St :=
  {| trace := trace s ++ [e];
     lazy_submodule_name := lazy_submodule_name s;
     lazy_repo_git := lazy_repo_git s |}.

(** ** The monad: environment, state and exceptions *)

Definition M (A : Type) : Type := Env -> St -> (Exn + A) * St.

Definition ret {A} (a : A) : M A := fun _ s => (inr a, s).

Definition bind {A B} (m : M A) (k : A -> M B) : M B :=
  fun env s =>
    match m env s with
    | (inl e, s') => (inl e, s')
    | (inr a, s') => k a env s'
    end.

Definition raise {A} (e : Exn) : M A := fun _ s => (inl e, s).

(** [try: m except GitCommandError: h] *)
Definition try_except_GitCommandError {A} (m : M A) (h : M A) : M A :=
  fun env s =>
    match m env s with
    | (inl (External GitCommandError), s') => h env s'
    | r => r
    end.

(** [with suppress(GitCommandError): m] *)
Definition suppress_GitCommandError (m : M unit) : M unit :=
  try_except_GitCommandError m (ret tt).

(** Performing a call: ask the collaborator, record the interaction, and let
    a failure propagate as an exception. *)
Definition call {X} (c : Call X) : M X :=
  fun env s =>
    let r := env X (trace s) c in
    (match r with inl f => inl (External f) | inr x => inr x end,
     log (Ev c r) s).

Declare Scope msk_scope.
Delimit Scope msk_scope with msk.
Notation "x <- m ;; k" := (bind m (fun x => k))
  (at level 100, m at next level, right associativity) : msk_scope.
Notation "m ;;; k" := (bind m (fun _ => k))
  (at level 100, right associativity) : msk_scope.
Open Scope msk_scope.

Definition run {A} (m : M A) (env : Env) : (Exn + A) * St := m env st0.

Definition call_ {X} (c : Call X) : M unit := _ <- call c ;; ret tt.

(** The dictionary [{name: path for name, path, url, sha in data}]: entries
    are inserted in order, so a later tuple replaces an earlier one of the
    same name. *)
Definition name_to_path (data : list SkillTuple) : gmap string string :=
  foldl (fun (m : gmap string string) (t : SkillTuple) =>
           match t with (n, p, _, _) => <[n := p]> m end) ∅ data.

(** The literal looked for in the body of an existing pull request. *)
Definition marker : string := "mycroft-skills-kit".

(** ** [msk/actions/upgrade.py] *)

Module UpgradeAction.
Section Methods.

(** [msk.__version__] *)
Variable version : string.

(** The attributes set by [__init__]. *)
Record t := { skill : SkillEntry; repo : SkillRepo }.

Variable self : t.

Definition find_submodule_path : M string :=
  data <- call (repo_get_skill_data (repo self)) ;;
  let name_to_path := name_to_path data in
  match name_to_path !! name (skill self) with
  | None =>
      raise (NotUploaded ("The skill " ++ name (skill self)
                          ++ " has not yet been uploaded to the skill store"))
  | Some p => ret p
  end.

(** A [Git] object is represented by its working directory, taken as it is
    given (the registry path that msm supplies is absolute); the pair
    returned is [(repo_git, skill_git)]. *)
Definition load_git_repos : M (string * string) :=
  submodule_path <- find_submodule_path ;;
  let repo_git := repo_path (repo self) in
  call (git repo_git ["submodule"; "update"; "--init"; submodule_path]) ;;;
  let skill_git := Py.path_join (repo_path (repo self)) submodule_path in
  ret (repo_git, skill_git).

Definition perform_local_upgrade (repo_git skill_git : string) : M string :=
  call (git repo_git ["reset"]) ;;;
  call (git skill_git ["fetch"]) ;;;
  default_branch <- call (git skill_git ["symbolic-ref"; "refs/remotes/origin/HEAD"]) ;;
  call (git skill_git ["reset"; "--hard"; default_branch]) ;;;
  let upgrade_branch := "upgrade/" ++ name (skill self) in
  suppress_GitCommandError
    (call_ (git repo_git ["branch"; "-D"; upgrade_branch])) ;;;
  call (git repo_git ["checkout"; "-b"; upgrade_branch]) ;;;
  d <- call (git repo_git ["diff"; skill_git]) ;;
  if negb (Py.truthy d) then
    raise (AlreadyUpdated ("The latest version of " ++ name (skill self)
                           ++ " is already uploaded to the skill repo"))
  else
    call (git repo_git ["add"; skill_git]) ;;;
    call (git repo_git ["commit"; "--message=Upgrade " ++ name (skill self)]) ;;;
    ret upgrade_branch.

(** One line of the list of changes. *)
Definition bullet (subject link : string) : string :=
  " - [" ++ subject ++ "](" ++ link ++ ")".

(** The generator expression of [create_pr_message], consumed by [join]:
    for each sha in turn, the subject line is asked of git, then the
    commit of the hosting service. *)
Fixpoint bullets (skill_git : string) (skill_repo : Repository)
         (shas : list string) : M (list string) :=
  match shas with
  | [] => ret []
  | sha :: rest =>
      subject <- call (git skill_git ["show"; "--format=%s"; "-s"; sha]) ;;
      commit <- call (get_commit skill_repo sha) ;;
      bs <- bullets skill_git skill_repo rest ;;
      ret (bullet subject (html_url commit) :: bs)
  end.

Definition body_header : string :=
  "This upgrades " ++ name (skill self)
  ++ " to include the following new commits:" ++ Py.nl ++ Py.nl.

Definition footer : string :=
  Py.nl ++ Py.nl ++ "<sub>Created with [mycroft-skills-kit]("
  ++ "https://github.com/mycroftai/mycroft-skills-kit" ++ ") v"
  ++ version ++ "</sub>".

Definition create_pr_message (skill_git : string) (skill_repo : Repository)
  : M (string * string) :=
  let title := "Upgrade " ++ name (skill self) in
  out <- call (git skill_git
                 ["rev-list"; "--ancestry-path"; sha (skill self) ++ ".." ++ "HEAD"]) ;;
  lines <- bullets skill_git skill_repo (Py.split Py.nl_char out) ;;
  let body := body_header ++ Py.join Py.nl lines in
  let body := body ++ footer in
  ret (title, body).

Definition setup_fork (repo_git : string) (user : User) (skills_repo : Repository)
  : M unit :=
  fork <- call (create_fork user skills_repo) ;;
  out <- call (git repo_git ["remote"]) ;;
  let remotes := Py.split Py.nl_char out in
  let command := if Py.list_in "fork" remotes then "set-url" else "add" in
  call_ (git repo_git ["remote"; command; "fork"; repo_html_url fork]).

Definition load_skill_repo : M Repository :=
  repo_name <- call (extract_repo_name (skill self) (url (skill self))) ;;
  let skill_full_repo_name := author (skill self) ++ "/" ++ repo_name in
  call (github_get_repo skill_full_repo_name).

Definition create_or_edit_pr (title body : string) (skills_repo : Repository)
           (user : User) (upgrade_branch : string) : M PullRequest :=
  let base := default_branch skills_repo in
  let head := login user ++ ":" ++ upgrade_branch in
  pulls <- call (get_pulls skills_repo base head) ;;
  match pulls with
  | pull :: _ =>
      (match github.body pull with
       | None => raise TypeError
       | Some pull_body =>
           if Py.str_in marker pull_body then
             call (pull_edit pull title body)
           else
             raise (PRModified "Not updating description since it was not autogenerated")
       end) ;;;
      ret pull
  | [] => call (create_pull skills_repo title body base head)
  end.

Definition push_to_fork (upgrade_branch : string) : M unit :=
  call (chdir (repo_path (repo self))) ;;;
  call_ (subprocess_call ["git"; "push"; "-u"; "fork"; upgrade_branch; "--force"] None).

Definition perform : M unit :=
  call (repo_update (repo self)) ;;;
  gits <- load_git_repos ;;
  let repo_git := fst gits in
  let skill_git := snd gits in
  upgrade_branch <- perform_local_upgrade repo_git skill_git ;;
  call ask_for_github_credentials ;;;
  skills_repo <- call (github_get_repo "MycroftAI/mycroft-skills") ;;
  user <- call github_get_user ;;
  setup_fork repo_git user skills_repo ;;;
  push_to_fork upgrade_branch ;;;
  skill_repo <- load_skill_repo ;;
  msg <- create_pr_message skill_git skill_repo ;;
  let title := fst msg in
  let body := snd msg in
  call (print EmptyString) ;;;
  call (print ("=== " ++ title ++ " ===")) ;;;
  call (print body) ;;;
  call (print EmptyString) ;;;
  pull <- create_or_edit_pr title body skills_repo user upgrade_branch ;;
  call_ (print ("Created PR at: " ++ pr_html_url pull)).

End Methods.
End UpgradeAction.

(** ** [msk/repo_action.py] *)

(** Modelled from the spec: [msk.lazy.Lazy] is not among the sources.  The
    spec calls these properties lazily-memoized, each computed from ambient
    shared state and cached after first access: the first access that
    completes stores its value, later accesses return the stored value
    without computing again, and an access that raises stores nothing. *)
Definition Lazy {A} (cached : St -> option A) (store : A -> St -> St)
           (compute : M A) : M A :=
  fun env s =>
    match cached s with
    | Some v => (inr v, s)
    | None =>
        match compute env s with
        | (inr v, s') => (inr v, store v s')
        | (inl e, s') => (inl e, s')
        end
    end.

Definition store_submodule_name (v : string) (s : St) : St :=
  {| trace := trace s;
     lazy_submodule_name := Some v;
     lazy_repo_git := lazy_repo_git s |}.

Definition store_repo_git (v : string) (s : St) : St :=
  {| trace := trace s;
     lazy_submodule_name := lazy_submodule_name s;
     lazy_repo_git := Some v |}.

Module RepoData.
Section Methods.

(** [msminfo] is the registry of the ambient skills manager; [git] is
    [Git(msminfo.path)], represented by that working directory. *)
Variable msminfo : SkillRepo.

Definition git_wd : string := repo_path msminfo.

Definition checkout_branch (branch : string) : M unit :=
  suppress_GitCommandError (call_ (git git_wd ["branch"; "-D"; branch])) ;;;
  try_except_GitCommandError
    (call_ (git git_wd ["checkout"; "-b"; branch]))
    (call_ (git git_wd ["checkout"; branch])).

End Methods.
End RepoData.

Module SkillData.
Section Methods.

(** [entry] is set by [__init__]; [msminfo] stands for [self.repo.msminfo],
    the registry shared through the ambient context. *)
Record t := { entry : SkillEntry; msminfo : SkillRepo }.

Variable self : t.

Definition name : string := msm.name (entry self).

Definition submodule_name : M string :=
  Lazy lazy_submodule_name store_submodule_name
    (data <- call (repo_get_skill_data (msminfo self)) ;;
     let name_to_path := name_to_path data in
     match name_to_path !! name with
     | None =>
         raise (NotUploaded ("The skill " ++ name
                             ++ " has not yet been uploaded to the skill store"))
     | Some p => ret p
     end).

(** [repo_git] is [Git(join(repo.msminfo.path, submodule_name))]. *)
Definition repo_git : M string :=
  Lazy lazy_repo_git store_repo_git
    (sub <- submodule_name ;;
     ret (Py.path_join (repo_path (msminfo self)) sub)).

Definition upgrade : M string :=
  skill_module <- submodule_name ;;
  call (repo_update (msminfo self)) ;;;
  g <- repo_git ;;
  call (git g ["fetch"]) ;;;
  g <- repo_git ;;
  default_branch <- call (git g ["symbolic-ref"; "refs/remotes/origin/HEAD"]) ;;
  g <- repo_git ;;
  call (git g ["reset"; "--hard"; default_branch]) ;;;
  let upgrade_branch := "upgrade/" ++ name in
  RepoData.checkout_branch (msminfo self) upgrade_branch ;;;
  let repo_git_wd := RepoData.git_wd (msminfo self) in
  d <- call (git repo_git_wd ["diff"; skill_module]) ;;
  already <- (if negb (Py.truthy d) then
                l <- call (git repo_git_wd ["ls-files"; skill_module]) ;;
                ret (Py.truthy l)
              else ret false) ;;
  if (already : bool) then
    raise (AlreadyUpdated ("The latest version of " ++ name
                           ++ " is already uploaded to the skill repo"))
  else
    call (git repo_git_wd ["add"; skill_module]) ;;;
    call (git repo_git_wd ["commit"; "--message=Upgrade " ++ name]) ;;;
    ret upgrade_branch.

Definition init_existing : M unit :=
  sub <- submodule_name ;;
  call_ (git (RepoData.git_wd (msminfo self))
             ["submodule"; "update"; "--init"; sub]).

End Methods.
End SkillData.

(** ** Observing a run *)

(** Is the event a command [cmd] of git, as in [git cmd ...]? *)
Definition is_git (cmd : string) (e : Event) : bool :=
  match e with
  | Ev c _ =>
      match c with
      | git _ (c0 :: _) => String.eqb c0 cmd
      | _ => false
      end
  end.

(** The operations that publish the upgrade: staging, committing, pushing,
    and creating or editing a pull request. *)
Definition is_add_commit_push_or_pr (e : Event) : bool :=
  match e with
  | Ev c _ =>
      match c with
      | git _ (c0 :: _) => String.eqb c0 "add" || String.eqb c0 "commit"
      | subprocess_call _ _ => true
      | create_pull _ _ _ _ _ => true
      | pull_edit _ _ _ => true
      | _ => false
      end
  end.

Definition is_pull_edit (e : Event) : bool :=
  match e with
  | Ev c _ => match c with pull_edit _ _ _ => true | _ => false end
  end.

Definition is_create_pull (e : Event) : bool :=
  match e with
  | Ev c _ => match c with create_pull _ _ _ _ _ => true | _ => false end
  end.

(** The answers, in order, that successful [git cmd] commands gave. *)
Definition git_answers (cmd : string) (tr : list Event) : list string :=
  flat_map (fun e =>
    match e with
    | Ev c r =>
        match c in Call X return Failure + X -> list string with
        | git _ (c0 :: _) => fun r =>
            if String.eqb c0 cmd
            then match r with inr out => [out] | inl _ => [] end
            else []
        | _ => fun _ => []
        end r
    end) tr.

(** ** A scripted collaborator, for running the program on examples *)

Module Script.

Definition some_repo : Repository :=
  {| full_name := "MycroftAI/mycroft-skills"; default_branch := "master";
     repo_html_url := "https://github.com/MycroftAI/mycroft-skills" |}.

(** The default answer: every call succeeds. *)
Definition succeed {X} (c : Call X) : X :=
  match c in Call X return X with
  | repo_update _ => tt
  | repo_get_skill_data _ => []
  | git _ _ => EmptyString
  | chdir _ => tt
  | subprocess_call _ _ => 0%Z
  | print _ => tt
  | ask_for_github_credentials => tt
  | github_get_repo full =>
      {| full_name := full; default_branch := "master";
         repo_html_url := "https://github.com/" ++ full |}
  | github_get_user => {| login := "dev" |}
  | extract_repo_name _ _ => "skill-weather"
  | create_fork user r =>
      {| full_name := login user ++ "/mycroft-skills";
         default_branch := default_branch r;
         repo_html_url := "https://github.com/" ++ login user ++ "/mycroft-skills" |}
  | get_pulls _ _ _ => []
  | create_pull _ title body _ _ =>
      {| number := 1; pr_title := title; github.body := Some body;
         pr_html_url := "https://github.com/MycroftAI/mycroft-skills/pull/1" |}
  | pull_edit _ _ _ => tt
  | get_commit r sha => {| html_url := repo_html_url r ++ "/commit/" ++ sha |}
  end.

(** A collaborator that does not look at the history: git commands are
    answered by [gitf] from their arguments, the registry lists [data],
    the hosting service lists [pulls], everything else succeeds. *)
Definition world (gitf : list string -> Failure + string)
           (data : list SkillTuple) (pulls : list PullRequest) : Env :=
  fun X _ c =>
    match c in Call X return Failure + X with
    | git _ argv => gitf argv
    | repo_get_skill_data _ => inr data
    | get_pulls _ _ _ => inr pulls
    | c => inr (succeed c)
    end.

Definition weather : SkillEntry :=
  {| msm.name := "skill-weather";
     url := "https://github.com/dev/skill-weather";
     author := "dev"; path := "/opt/mycroft/skills/skill-weather";
     sha := "abc123"; is_local := true |}.

Definition registry : SkillRepo :=
  {| repo_path := "/opt/mycroft/.skills-repo";
     repo_url := "https://github.com/MycroftAI/mycroft-skills" |}.

Definition listing : list SkillTuple :=
  [("skill-alarm", "skill-alarm", "https://github.com/dev/skill-alarm", "111");
   ("skill-weather", "skill-weather", "https://github.com/dev/skill-weather", "abc123")].

(** git answers: the head of [argv] selects the command. *)
Definition git_with (diff ls_files rev_list : string) (argv : list string)
  : Failure + string :=
  match argv with
  | cmd :: _ =>
      if String.eqb cmd "diff" then inr diff
      else if String.eqb cmd "ls-files" then inr ls_files
      else if String.eqb cmd "rev-list" then inr rev_list
      else if String.eqb cmd "show" then inr "Add retry"
      else if String.eqb cmd "symbolic-ref" then inr "refs/remotes/origin/master"
      else inr EmptyString
  | [] => inr EmptyString
  end.

End Script.

(** The state of a fresh run after the interactions [tr]. *)
Definition after (tr : list Event) : St :=
  {| trace := tr; lazy_submodule_name := None; lazy_repo_git := None |}.

(** The listing asked of the hosting service by [create_or_edit_pr]. *)
Definition pulls_listing (skills_repo : Repository) (user : User)
           (upgrade_branch : string) : Call (list PullRequest) :=
  get_pulls skills_repo (default_branch skills_repo)
            (login user ++ ":" ++ upgrade_branch).

(** The rev-list command of [create_pr_message]. *)
Definition rev_list_call (skill : SkillEntry) (skill_git : string) : Call string :=
  git skill_git ["rev-list"; "--ancestry-path"; sha skill ++ ".." ++ "HEAD"].

Definition show_call (skill_git sha : string) : Call string :=
  git skill_git ["show"; "--format=%s"; "-s"; sha].

Module Spec.

(** The commits a rev-list output names, as the specification reads it:
    one sha per line, and no commit at all when the output is empty. *)
Definition commits_in_rev_list (out : string) : list string :=
  if Py.truthy out then Py.split Py.nl_char out else [].

(** The bullet lines of a pull-request body. *)
Definition bullet_lines (body : string) : list string :=
  filter (fun l => String.prefix " - [" l = true) (Py.split Py.nl_char body).

End Spec.

(** The name held by a registry tuple. *)
Definition tuple_name (t : SkillTuple) : string :=
  match t with (n, _, _, _) => n end.

(** The listing asked of the registry when resolving the submodule path. *)
Definition listing_call (r : SkillRepo) : Call (list SkillTuple) :=
  repo_get_skill_data r.

Definition not_uploaded_message (n : string) : string :=
  "The skill " ++ n ++ " has not yet been uploaded to the skill store".

(** ** The steps of [perform_local_upgrade]

    The body of [UpgradeAction.perform_local_upgrade], cut where the upgrade
    flow changes step: synchronizing with upstream (lines 52-55), readying
    the branch (lines 56-59), checking the difference and committing (lines
    60-67).  [perform_local_upgrade_steps] below shows that the method is
    these three in sequence. *)
Module Steps.
Section Steps.
Variable self : UpgradeAction.t.
Variables repo_git skill_git : string.

Definition upgrade_branch : string := "upgrade/" ++ name (UpgradeAction.skill self).

Definition delete_branch : Call string := git repo_git ["branch"; "-D"; upgrade_branch].
Definition create_branch : Call string := git repo_git ["checkout"; "-b"; upgrade_branch].

Definition sync_upstream : M unit :=
  call (git repo_git ["reset"]) ;;;
  call (git skill_git ["fetch"]) ;;;
  default_branch <- call (git skill_git ["symbolic-ref"; "refs/remotes/origin/HEAD"]) ;;
  call_ (git skill_git ["reset"; "--hard"; default_branch]).

Definition branch_ready : M unit :=
  suppress_GitCommandError (call_ delete_branch) ;;;
  call_ create_branch.

Definition diff_and_commit : M string :=
  d <- call (git repo_git ["diff"; skill_git]) ;;
  if negb (Py.truthy d) then
    raise (AlreadyUpdated ("The latest version of " ++ name (UpgradeAction.skill self)
                           ++ " is already uploaded to the skill repo"))
  else
    call (git repo_git ["add"; skill_git]) ;;;
    call (git repo_git ["commit"; "--message=Upgrade " ++ name (UpgradeAction.skill self)]) ;;;
    ret upgrade_branch.

End Steps.
End Steps.


Definition already_updated_message (n : string) : string :=
  "The latest version of " ++ n ++ " is already uploaded to the skill repo".

(** The successful answers, in order, to the registry listing. *)
Definition registry_listings (tr : list Event) : list (list SkillTuple) :=
  flat_map (fun e =>
    match e with
    | Ev c r =>
        match c in Call X return Failure + X -> list (list SkillTuple) with
        | repo_get_skill_data _ => fun r =>
            match r with inr data => [data] | inl _ => [] end
        | _ => fun _ => []
        end r
    end) tr.



(** What a run changed in the registry working copy: a path staged (the
    argument of [git add], resolved against the working directory of the
    command) or a commit made (with the message option given). *)
Inductive Change :=
| Staged (target : string)
| Committed (message : string).

Definition change_of (e : Event) : list Change :=
  match e with
  | Ev c r =>
      match r with
      | inl _ => []
      | inr _ =>
          match c with
          | git wd [c0; arg] =>
              if String.eqb c0 "add" then [Staged (Py.path_join wd arg)]
              else if String.eqb c0 "commit" then [Committed arg]
              else []
          | _ => []
          end
      end
  end.

Definition changes (tr : list Event) : list Change := flat_map change_of tr.

(** The outcome of an upgrade: the branch returned or the exception raised,
    and the changes staged and committed. *)
Definition outcome (out : (Exn + string) * St) : (Exn + string) * list Change :=
  (fst out, changes (trace (snd out))).

Module Equivalence.


End Equivalence.

(** ** Example runs *)

Module Examples.
Import Script.

Definition action : UpgradeAction.t :=
  {| UpgradeAction.skill := weather; UpgradeAction.repo := registry |}.

Definition skill_data : SkillData.t :=
  {| SkillData.entry := weather; SkillData.msminfo := registry |}.

Definition me : User := {| login := "dev" |}.

Definition skill_git : string := "/opt/mycroft/.skills-repo/skill-weather".

Definition newline_two_shas : string := "def456" ++ Py.nl ++ "987fff".

(** New upstream commits, the submodule pointer differs, the path is
    tracked, no pull request yet. *)
Definition upgradable : Env :=
  world (git_with "M skill-weather" "skill-weather" newline_two_shas) listing [].

(** The submodule path shows no difference and is not tracked: [ls-files]
    answers nothing. *)
Definition untracked_unchanged : Env :=
  world (git_with EmptyString EmptyString "def456") listing [].


(** The branch does not exist yet: only the delete fails. *)
Definition branch_absent : Env :=
  world (fun argv =>
           match argv with
           | c0 :: _ =>
               if String.eqb c0 "branch" then inl GitCommandError
               else git_with "M skill-weather" "skill-weather" "def456" argv
           | [] => inr EmptyString
           end) listing [].



(** No new commit between the recorded sha and HEAD: the rev-list prints
    nothing. *)
Definition no_new_commits : Env :=
  world (git_with "M skill-weather" "skill-weather" EmptyString) listing [].

Definition generated : PullRequest :=
  {| number := 7; pr_title := "Upgrade skill-weather";
     github.body := Some ("This upgrades skill-weather" ++ UpgradeAction.footer "0.3.1");
     pr_html_url := "https://github.com/MycroftAI/mycroft-skills/pull/7" |}.

Definition hand_edited : PullRequest :=
  {| number := 8; pr_title := "Upgrade skill-weather";
     github.body := Some "Please merge, fixes the forecast.";
     pr_html_url := "https://github.com/MycroftAI/mycroft-skills/pull/8" |}.

(** A pull request opened by hand without a description. *)
Definition no_description : PullRequest :=
  {| number := 9; pr_title := "Upgrade skill-weather";
     github.body := None;
     pr_html_url := "https://github.com/MycroftAI/mycroft-skills/pull/9" |}.

(** No new commit, and git refuses the empty revision that [show] is then
    asked about. *)
Definition empty_sha_refused : Env :=
  world (fun argv =>
           match argv with
           | c0 :: _ =>
               if String.eqb c0 "show" then inl GitCommandError
               else git_with "M skill-weather" "skill-weather" EmptyString argv
           | [] => inr EmptyString
           end) listing [].

Definition with_pulls (pulls : list PullRequest) : Env :=
  world (git_with "M skill-weather" "skill-weather" newline_two_shas) listing pulls.

End Examples.

Module Runs.
Import Script Examples.

Definition skill_repo : Repository :=
  {| full_name := "dev/skill-weather"; default_branch := "master";
     repo_html_url := "https://github.com/dev/skill-weather" |}.

Definition reconcile (env : Env) : (Exn + PullRequest) * St :=
  run (UpgradeAction.create_or_edit_pr
         "Upgrade skill-weather" "This upgrades skill-weather" some_repo me
         "upgrade/skill-weather") env.

Definition message (env : Env) : (Exn + string * string) * St :=
  run (UpgradeAction.create_pr_message "0.3.1" action skill_git skill_repo) env.

End Runs.

(** ** The rest of the two files *)

(** [UpgradeAction.__init__] (upgrade.py, lines 20-32): [skills] is what
    [msm.list()] returned, [repo] is [msm.repo], [skill_folder] is
    [args.skill_folder], and [samefile] is [genericpath.samefile], which
    raises when a path cannot be examined. *)
Module Init.
Section Init.

Variable samefile : string -> string -> Failure + bool.

(** The list comprehension: [samefile] is evaluated only for a local
    skill, and the first failure ends the comprehension. *)
Fixpoint skill_matches (skills : list SkillEntry) (skill_folder : string)
  : Failure + list SkillEntry :=
  match skills with
  | [] => inr []
  | skill :: rest =>
      match (if is_local skill then samefile (path skill) skill_folder
             else inr false) with
      | inl f => inl f
      | inr keep =>
          match skill_matches rest skill_folder with
          | inl f => inl f
          | inr l => inr (if keep then skill :: l else l)
          end
      end
  end.

Definition init (skills : list SkillEntry) (repo : SkillRepo)
           (skill_folder : string) : Exn + UpgradeAction.t :=
  match skill_matches skills skill_folder with
  | inl f => inl (External f)
  | inr [] =>
      inl (NotUploaded ("Skill at folder not uploaded to store: " ++ skill_folder))
  | inr (skill :: _) =>
      inr {| UpgradeAction.skill := skill; UpgradeAction.repo := repo |}
  end.

End Init.
End Init.

(** [SkillData.add_to_repo] (repo_action.py, lines 76-86). *)
Module AddToRepo.

(** [str.isspace] for a character below 256. *)
Definition is_space (a : ascii) : bool :=
  let n := nat_of_ascii a in
  (Nat.leb 9 n && Nat.leb n 13) || (Nat.leb 28 n && Nat.leb n 32)
  || Nat.eqb n 133 || Nat.eqb n 160.

(** [s.split()]: the words between runs of whitespace. *)
Fixpoint split_ws (s : string) : list string :=
  match s with
  | EmptyString => []
  | String a s' =>
      if is_space a then split_ws s'
      else match s' with
           | EmptyString => [String a EmptyString]
           | String b _ =>
               if is_space b then String a EmptyString :: split_ws s'
               else match split_ws s' with
                    | w :: ws => String a w :: ws
                    | [] => [String a EmptyString]
                    end
           end
  end.

(** What unpacking a list into four names raises when it does not hold
    four values. *)
Inductive ValueError :=
| not_enough_values (expected got : nat)
| too_many_values (expected : nat).

(** [size, typ, sha, folder = fields] *)
Definition unpack4 (fields : list string)
  : ValueError + (string * string * string * string) :=
  match fields with
  | [size; typ; sha; folder] => inr (size, typ, sha, folder)
  | _ :: _ :: _ :: _ :: _ :: _ => inl (too_many_values 4)
  | _ => inl (not_enough_values 4 (length fields))
  end.

(** [[folder for size, typ, sha, folder in elements]] *)
Fixpoint existing_mods (elements : list (list string)) : ValueError + list string :=
  match elements with
  | [] => inr []
  | fields :: rest =>
      match unpack4 fields with
      | inl err => inl err
      | inr (_, _, _, folder) =>
          match existing_mods rest with
          | inl err => inl err
          | inr folders => inr (folder :: folders)
          end
      end
  end.

Section Methods.

Variable self : SkillData.t.

(** [self.git] is [Git(self.entry.path)].  A [ValueError] of the unpacking
    leaves the method at once; it is returned on the left. *)
Definition add_to_repo : M (ValueError + string) :=
  call (repo_update (SkillData.msminfo self)) ;;;
  out <- call (git (path (SkillData.entry self)) ["ls-tree"; "HEAD"]) ;;
  let elements := map split_ws (Py.split Py.nl_char out) in
  match existing_mods elements with
  | inl err => ret (inl err)
  | inr existing_mods =>
      let repo_git_wd := RepoData.git_wd (SkillData.msminfo self) in
      (if negb (Py.list_in (SkillData.name self) existing_mods) then
         call_ (git repo_git_wd ["submodule"; "add"; url (SkillData.entry self);
                                 SkillData.name self])
       else ret tt) ;;;
      let branch_name := "add/" ++ SkillData.name self in
      RepoData.checkout_branch (SkillData.msminfo self) branch_name ;;;
      call (git repo_git_wd ["add"; SkillData.name self]) ;;;
      call (git repo_git_wd ["commit"; "--message=Add " ++ SkillData.name self]) ;;;
      ret (inr branch_name)
  end.

End Methods.
End AddToRepo.

(** ** More to observe of a run *)

Definition is_any_git (e : Event) : bool :=
  match e with
  | Ev c _ => match c with git _ _ => true | _ => false end
  end.

(** The push: the [git push] run through [subprocess.call]. *)
Definition is_push (e : Event) : bool :=
  match e with
  | Ev c _ => match c with subprocess_call _ _ => true | _ => false end
  end.

(** The shas for which the subject line was asked, in order. *)
Definition show_shas (tr : list Event) : list string :=
  flat_map (fun e =>
    match e with
    | Ev c _ =>
        match c with
        | git _ [c0; _; _; sha] => if String.eqb c0 "show" then [sha] else []
        | _ => []
        end
    end) tr.

(** The shas for which the commit was asked of the hosting service, and the
    links answered, in order. *)
Definition commit_shas (tr : list Event) : list string :=
  flat_map (fun e =>
    match e with
    | Ev c _ => match c with get_commit _ sha => [sha] | _ => [] end
    end) tr.

Definition commit_links (tr : list Event) : list string :=
  flat_map (fun e =>
    match e with
    | Ev c r =>
        match c in Call X return Failure + X -> list string with
        | get_commit _ _ => fun r =>
            match r with inr commit => [html_url commit] | inl _ => [] end
        | _ => fun _ => []
        end r
    end) tr.

(** The bullets rendered from subjects and links taken pairwise. *)
Fixpoint render_bullets (subjects links : list string) : list string :=
  match subjects, links with
  | subject :: subjects', link :: links' =>
      UpgradeAction.bullet subject link :: render_bullets subjects' links'
  | _, _ => []
  end.

(** The calls [create_pr_message] makes. *)
Definition is_message_query (e : Event) : bool :=
  is_git "rev-list" e || is_git "show" e
  || match e with
     | Ev c _ => match c with get_commit _ _ => true | _ => false end
     end.

Module MoreExamples.
Import Script Examples.


(** The remote rejects the push: [git push] exits with 1. *)
Definition push_rejected : Env :=
  fun X h c =>
    match c in Call X return Failure + X with
    | subprocess_call _ _ => inr 1%Z
    | c => upgradable _ h c
    end.

(** The machine has no git: the delete fails, and not with
    [GitCommandError]. *)
Definition no_git : Env :=
  world (fun _ => inl (OtherFailure "GitCommandNotFound")) listing [].

(** A remote named fork exists already. *)
Definition fork_known : Env :=
  world (fun argv =>
           match argv with
           | [c0] => if String.eqb c0 "remote" then inr ("origin" ++ Py.nl ++ "fork")
                     else git_with "M skill-weather" "skill-weather" "def456" argv
           | _ => git_with "M skill-weather" "skill-weather" "def456" argv
           end) listing [].

Definition tab : string := String "009"%char EmptyString.

(** The tree of the skill's own repository. *)
Definition tree_of (lines : string) : Env :=
  world (fun argv =>
           match argv with
           | c0 :: _ => if String.eqb c0 "ls-tree" then inr lines
                        else git_with "M skill-weather" "skill-weather" "def456" argv
           | [] => inr EmptyString
           end) listing [].


Definition installed : list SkillEntry :=
  [ {| msm.name := "skill-alarm"; url := "https://github.com/dev/skill-alarm";
       author := "dev"; path := "/opt/mycroft/skills/skill-alarm";
       sha := "111"; is_local := false |};
    weather ].

(** Every path is its own file only. *)
Definition samefile (a b : string) : Failure + bool := inr (String.eqb a b).

(** The registry does not list the plugin. *)
Definition unlisted : Env :=
  world (git_with "M skill-weather" "skill-weather" "def456")
        [("skill-alarm", "skill-alarm", "https://github.com/dev/skill-alarm", "111")]
        [].

(** A file of the skill has a space in its name. *)
Definition spaced_tree : string :=
  "100644 blob 8baef1b4abc478178b004d62031cf7fe6db6f903" ++ tab ++ "read me.md".

End MoreExamples.

(** The commands run through [subprocess.call] that returned, in order,
    each with its arguments; [push_to_fork] runs [git push] this way. *)
Definition pushes (tr : list Event) : list (list string) :=
  flat_map (fun e =>
    match e with
    | Ev c r =>
        match c, r with
        | subprocess_call argv _, inr _ => [argv]
        | _, _ => []
        end
    end) tr.

Module Claimed.

(** What is said of a run whose rev-list printed nothing: a body is
    generated, and it holds exactly one bullet line. *)
Definition one_bullet_body (out : (Exn + string * string) * St) : Prop :=
  exists title body,
    fst out = inr (title, body) /\ length (Spec.bullet_lines body) = 1.

End Claimed.

(** * Properties *)

(** ** Running the monad step by step *)

Section Stepping.
Context {A : Type}.

Lemma bind_call {X} (c : Call X) (k : X -> M A) env s :
  bind (call c) k env s =
  match env X (trace s) c with
  | inl f => (inl (External f), log (Ev c (inl f)) s)
  | inr x => k x env (log (Ev c (inr x)) s)
  end.
Proof. unfold bind, call. destruct (env X (trace s) c); reflexivity. Qed.

Lemma bind_call_ {X} (c : Call X) (k : unit -> M A) env s :
  bind (call_ c) k env s =
  match env X (trace s) c with
  | inl f => (inl (External f), log (Ev c (inl f)) s)
  | inr x => k tt env (log (Ev c (inr x)) s)
  end.
Proof. unfold call_, bind, call, ret. destruct (env X (trace s) c); reflexivity. Qed.

Lemma call_run {X} (c : Call X) env s :
  call c env s =
  (match env X (trace s) c with
   | inl f => inl (External f)
   | inr x => inr x
   end, log (Ev c (env X (trace s) c)) s).
Proof. reflexivity. Qed.

Lemma bind_ret {B} (b : B) (k : B -> M A) env s :
  bind (ret b) k env s = k b env s.
Proof. reflexivity. Qed.

Lemma bind_raise {B} (e : Exn) (k : B -> M A) env s :
  bind (raise e) k env s = (inl e, s).
Proof. reflexivity. Qed.

Lemma bind_assoc {B C} (m : M B) (f : B -> M C) (g : C -> M A) env s :
  bind (bind m f) g env s = bind m (fun b => bind (f b) g) env s.
Proof. unfold bind. destruct (m env s) as [[e|b] s']; reflexivity. Qed.

(** A suppressed git command lets the run go on whether it succeeded or
    failed with [GitCommandError]; any other failure propagates. *)
Lemma bind_suppress_call_ {X} (c : Call X) (k : unit -> M A) env s :
  bind (suppress_GitCommandError (call_ c)) k env s =
  match env X (trace s) c with
  | inl (OtherFailure w) =>
      (inl (External (OtherFailure w)), log (Ev c (inl (OtherFailure w))) s)
  | r => k tt env (log (Ev c r) s)
  end.
Proof.
  unfold suppress_GitCommandError, try_except_GitCommandError, call_, bind, call, ret.
  destruct (env X (trace s) c) as [[|w]|x]; reflexivity.
Qed.

End Stepping.

Lemma trace_log e s : trace (log e s) = (trace s ++ [e])%list.
Proof. reflexivity. Qed.

Lemma bind_Lazy {A B} (cached : St -> option A) store (m : M A) (k : A -> M B) env s :
  bind (Lazy cached store m) k env s =
  match cached s with
  | Some v => k v env s
  | None =>
      match m env s with
      | (inr v, s') => k v env (store v s')
      | (inl e, s') => (inl e, s')
      end
  end.
Proof.
  unfold bind, Lazy. destruct (cached s); [reflexivity|].
  destruct (m env s) as [[e|v] s']; reflexivity.
Qed.

(** [try: c1 except GitCommandError: c2], then the rest. *)
Lemma bind_try_call_ {A X Y} (c1 : Call X) (c2 : Call Y) (k : unit -> M A) env s :
  bind (try_except_GitCommandError (call_ c1) (call_ c2)) k env s =
  match env _ (trace s) c1 with
  | inr x => k tt env (log (Ev c1 (inr x)) s)
  | inl GitCommandError =>
      bind (call_ c2) k env (log (Ev c1 (inl GitCommandError)) s)
  | inl (OtherFailure w) =>
      (inl (External (OtherFailure w)), log (Ev c1 (inl (OtherFailure w))) s)
  end.
Proof.
  unfold try_except_GitCommandError, call_, bind, call, ret.
  destruct (env X (trace s) c1) as [[|w]|x]; reflexivity.
Qed.

Lemma ret_run {A} (a : A) env s : ret a env s = (inr a, s).
Proof. reflexivity. Qed.

Lemma raise_run {A} (e : Exn) env s : @raise A e env s = (inl e, s).
Proof. reflexivity. Qed.

Lemma bind_run {A B} (m : M A) (k : A -> M B) env s :
  bind m k env s =
  match m env s with
  | (inl e, s') => (inl e, s')
  | (inr a, s') => k a env s'
  end.
Proof. reflexivity. Qed.

Lemma call__run {X} (c : Call X) env s :
  call_ c env s =
  match env X (trace s) c with
  | inl f => (inl (External f), log (Ev c (inl f)) s)
  | inr x => (inr tt, log (Ev c (inr x)) s)
  end.
Proof. unfold call_, bind, call, ret. destruct (env X (trace s) c); reflexivity. Qed.

Ltac tidy :=
  cbn [trace log st0 app store_submodule_name store_repo_git
       lazy_submodule_name lazy_repo_git fst snd negb].

Ltac step :=
  first [ rewrite bind_suppress_call_
        | rewrite bind_call_
        | rewrite bind_call
        | rewrite bind_ret
        | rewrite bind_raise ];
  tidy.

(** To show a property of a run, name the property and step through the
    run: [post] names it, [advance] performs the next action of the program
    and, when that is a call, follows each answer the collaborator can
    give. *)
Ltac post env :=
  cbv zeta;
  match goal with |- context [run ?m env] => pattern (run m env) end;
  match goal with |- ?P _ => let Post := fresh "Post" in set (Post := P) end;
  unfold run.

(** A run that ended in a failure of a collaborator: closed when the property
    assumes something that such a run contradicts. *)
Ltac failed_leaf :=
  match goal with
  | |- ?P (inl (External _), _) => subst P; cbn; discriminate
  end.

Ltac advance env :=
  rewrite ?bind_assoc;
  first [ rewrite bind_ret
        | rewrite bind_raise
        | rewrite bind_Lazy
        | rewrite ret_run
        | rewrite raise_run
        | first [ rewrite bind_suppress_call_ | rewrite bind_try_call_
                | rewrite bind_call_ | rewrite bind_call ];
          tidy;
          match goal with
          | |- context [match env ?X ?h ?c with _ => _ end] =>
              destruct (env X h c) as [[|?]|?] eqn:?
          end ];
  tidy; try failed_leaf.

(** ** Python strings *)

Lemma prefix_app (n b : string) : String.prefix n (n ++ b) = true.
Proof.
  induction n as [|c n IH].
  - change (EmptyString ++ b) with b. destruct b; reflexivity.
  - change (String c n ++ b) with (String c (n ++ b)). cbn [String.prefix].
    destruct (ascii_dec c c) as [_|ne]; [exact IH | contradiction].
Qed.

Lemma str_in_here (n hay : string) :
  String.prefix n hay = true -> Py.str_in n hay = true.
Proof. intros P. destruct hay; cbn [Py.str_in]; rewrite P; reflexivity. Qed.

Lemma str_in_later (n : string) (c : ascii) (hay : string) :
  Py.str_in n hay = true -> Py.str_in n (String c hay) = true.
Proof.
  intros H. cbn [Py.str_in]. rewrite H.
  destruct (String.prefix n (String c hay)); reflexivity.
Qed.

Lemma str_in_app (n a b : string) : Py.str_in n (a ++ n ++ b) = true.
Proof.
  induction a as [|c a IH].
  - change (EmptyString ++ n ++ b) with (n ++ b).
    apply str_in_here, prefix_app.
  - change (String c a ++ n ++ b) with (String c (a ++ n ++ b)).
    apply str_in_later, IH.
Qed.

Lemma append_assoc_str (a b c : string) : (a ++ b) ++ c = a ++ b ++ c.
Proof.
  induction a as [|x a IH]; [reflexivity|].
  change ((String x a ++ b) ++ c) with (String x ((a ++ b) ++ c)).
  rewrite IH. reflexivity.
Qed.

Lemma append_inv_head (a x y : string) : a ++ x = a ++ y -> x = y.
Proof.
  induction a as [|c a IH]; [intros H; exact H|].
  change (String c a ++ x) with (String c (a ++ x)).
  change (String c a ++ y) with (String c (a ++ y)).
  intros [= H]. exact (IH H).
Qed.

(** ** Reconciling the pull request *)

Section CreateOrEditPr.
Variables (env : Env) (title body : string) (skills_repo : Repository)
          (user : User) (upgrade_branch : string).

Let listing := pulls_listing skills_repo user upgrade_branch.
Let out := run (UpgradeAction.create_or_edit_pr
                  title body skills_repo user upgrade_branch) env.

(** What [create_or_edit_pr] does for each answer of the listing. *)
Lemma create_or_edit_pr_run :
  out =
  match env _ [] listing with
  | inl f => (inl (External f), after [Ev listing (inl f)])
  | inr [] =>
      let e1 := Ev listing (inr []) in
      let c := create_pull skills_repo title body (default_branch skills_repo)
                           (login user ++ ":" ++ upgrade_branch) in
      let a := env _ [e1] c in
      (match a with inl f => inl (External f) | inr p => inr p end,
       after [e1; Ev c a])
  | inr (pull :: others) =>
      let e1 := Ev listing (inr (pull :: others)) in
      match github.body pull with
      | None =>
          (inl TypeError, after [e1])
      | Some pull_body =>
          if Py.str_in marker pull_body then
            let a := env _ [e1] (pull_edit pull title body) in
            (match a with inl f => inl (External f) | inr _ => inr pull end,
             after [e1; Ev (pull_edit pull title body) a])
          else
            (inl (PRModified "Not updating description since it was not autogenerated"),
             after [e1])
      end
  end.
Proof.
  subst out listing. unfold run, UpgradeAction.create_or_edit_pr, pulls_listing.
  step. destruct (env _ [] _) as [f|[|pull others]]; [reflexivity| |].
  - rewrite call_run. cbn. reflexivity.
  - destruct (github.body pull) as [pull_body|]; [|reflexivity].
    destruct (Py.str_in marker pull_body).
    + step. cbn. destruct (env _ _ (pull_edit pull title body)); reflexivity.
    + reflexivity.
Qed.

(** X26: when the listing for the base and head yields a pull request whose
    body is a string that does not contain the marker, [create_or_edit_pr]
    raises [PRModified]; the listing is the only call made, so the pull
    request is neither edited nor is another one created. *)
Lemma create_or_edit_pr_refuses_unmarked (pull : PullRequest)
      (others : list PullRequest) (pull_body : string) :
  env _ [] listing = inr (pull :: others) ->
  github.body pull = Some pull_body ->
  Py.str_in marker pull_body = false ->
  fst out = inl (PRModified "Not updating description since it was not autogenerated")
  /\ trace (snd out) = [Ev listing (inr (pull :: others))]
  /\ existsb is_pull_edit (trace (snd out)) = false
  /\ existsb is_add_commit_push_or_pr (trace (snd out)) = false.
Proof.
  intros L B N. rewrite create_or_edit_pr_run, L, B, N. cbn. repeat split; reflexivity.
Qed.

(** X27: when the pull request listed has no description, its body is [None] and
    the test for the marker raises [TypeError]: that, and not [PRModified],
    is what [create_or_edit_pr] raises.  The pull request is not edited. *)
Lemma create_or_edit_pr_without_description (pull : PullRequest)
      (others : list PullRequest) :
  env _ [] listing = inr (pull :: others) ->
  github.body pull = None ->
  out = (inl TypeError,
         after [Ev listing (inr (pull :: others))]).
Proof.
  intros L B. rewrite create_or_edit_pr_run, L, B. reflexivity.
Qed.

(** C4: when the listing yields a pull request whose body contains the
    marker, that pull request is edited with the new title and body and
    returned, and no pull request is created; [create_pull] is called only
    when the listing is empty. *)
Theorem create_or_edit_pr_edits_marked :
  (forall pull others pull_body,
      env _ [] listing = inr (pull :: others) ->
      github.body pull = Some pull_body ->
      Py.str_in marker pull_body = true ->
      let e1 := Ev listing (inr (pull :: others)) in
      let a := env _ [e1] (pull_edit pull title body) in
      trace (snd out) = [e1; Ev (pull_edit pull title body) a]
      /\ fst out = match a with inl f => inl (External f) | inr _ => inr pull end
      /\ existsb is_create_pull (trace (snd out)) = false)
  /\ (existsb is_create_pull (trace (snd out)) = true ->
      env _ [] listing = inr []).
Proof.
  split.
  - intros pull others pull_body L B Y. rewrite create_or_edit_pr_run, L, B, Y. cbn.
    repeat split; reflexivity.
  - rewrite create_or_edit_pr_run.
    destruct (env _ [] listing) as [f|[|pull others]]; cbn; try discriminate.
    + reflexivity.
    + destruct (github.body pull) as [pull_body|]; [|cbn; discriminate].
      destruct (Py.str_in marker pull_body); cbn; discriminate.
Qed.

(** C9: when the listing yields more than one pull request, the first one
    is taken: it is edited and returned if its body contains the marker
    and refused otherwise (with [TypeError] if it has no body at all); no
    call is made about the others, and that there are several raises no
    error of its own. *)
Theorem create_or_edit_pr_takes_first (first second : PullRequest)
        (others : list PullRequest) :
  env _ [] listing = inr (first :: second :: others) ->
  let e1 := Ev listing (inr (first :: second :: others)) in
  out =
  match github.body first with
  | None =>
      (inl TypeError, after [e1])
  | Some first_body =>
      if Py.str_in marker first_body then
        let a := env _ [e1] (pull_edit first title body) in
        (match a with inl f => inl (External f) | inr _ => inr first end,
         after [e1; Ev (pull_edit first title body) a])
      else
        (inl (PRModified "Not updating description since it was not autogenerated"),
         after [e1])
  end.
Proof. intros L. rewrite create_or_edit_pr_run, L. reflexivity. Qed.

End CreateOrEditPr.

(** ** The pull-request message *)

Lemma str_in_app_l (n x hay : string) :
  Py.str_in n hay = true -> Py.str_in n (x ++ hay) = true.
Proof.
  intros H. induction x as [|c x IH]; [exact H|].
  change (String c x ++ hay) with (String c (x ++ hay)).
  apply str_in_later, IH.
Qed.

Section CreatePrMessage.
Variables (version : string) (self : UpgradeAction.t).
Variables (skill_git : string) (skill_repo : Repository).

Let title := "Upgrade " ++ name (UpgradeAction.skill self).
Let header := UpgradeAction.body_header self.
Let footer := UpgradeAction.footer version.
Let bullets := UpgradeAction.bullets skill_git skill_repo.
Let rev_list := rev_list_call (UpgradeAction.skill self) skill_git.

Lemma footer_has_marker : Py.str_in marker footer = true.
Proof.
  subst footer. unfold UpgradeAction.footer.
  change (Py.str_in marker
            ((Py.nl ++ Py.nl ++ "<sub>Created with [") ++ marker
             ++ ("](https://github.com/mycroftai/mycroft-skills-kit) v"
                 ++ version ++ "</sub>")) = true).
  apply str_in_app.
Qed.

(** [create_pr_message] asks for the rev-list, renders one bullet per
    element of the split output, and wraps them in header and footer. *)
Lemma create_pr_message_run env s :
  UpgradeAction.create_pr_message version self skill_git skill_repo env s =
  match env _ (trace s) rev_list with
  | inl f => (inl (External f), log (Ev rev_list (inl f)) s)
  | inr out =>
      match bullets (Py.split Py.nl_char out) env (log (Ev rev_list (inr out)) s) with
      | (inl e, s') => (inl e, s')
      | (inr lines, s') =>
          (inr (title, (header ++ Py.join Py.nl lines) ++ footer), s')
      end
  end.
Proof.
  unfold UpgradeAction.create_pr_message. rewrite bind_call.
  subst rev_list. unfold rev_list_call.
  destruct (env _ (trace s) _) as [f|out]; [reflexivity|].
  unfold bind at 1. subst bullets.
  destruct (UpgradeAction.bullets _ _ _ env _) as [[e|lines] s']; reflexivity.
Qed.

(** There are as many bullets as shas iterated over. *)
Lemma bullets_length shas : forall env s lines s',
  bullets shas env s = (inr lines, s') -> length lines = length shas.
Proof.
  subst bullets.
  induction shas as [|sha0 rest IH]; intros env s lines s' R.
  - cbn in R. inversion R. reflexivity.
  - cbn [UpgradeAction.bullets] in R. rewrite bind_call in R.
    destruct (env _ (trace s) _) as [f|subject]; [discriminate|].
    rewrite bind_call in R.
    destruct (env _ _ (get_commit _ _)) as [f|commit]; [discriminate|].
    unfold bind at 1 in R.
    destruct (UpgradeAction.bullets _ _ rest env _) as [[e|ls] s2] eqn:B;
      [discriminate|].
    cbn in R. inversion R; subst. cbn. f_equal. eapply IH, B.
Qed.

(** C8: every body that [create_pr_message] returns contains the marker
    that [create_or_edit_pr] looks for; so when the listing yields a pull
    request carrying such a body, [create_or_edit_pr] edits it and does not
    raise [PRModified]. *)
Theorem generated_body_is_editable (env : Env) title0 body0 :
  fst (run (UpgradeAction.create_pr_message version self skill_git skill_repo) env)
  = inr (title0, body0) ->
  Py.str_in marker body0 = true
  /\ forall (env' : Env) title' body' skills_repo user upgrade_branch pull others,
      github.body pull = Some body0 ->
      let listing := pulls_listing skills_repo user upgrade_branch in
      env' _ [] listing = inr (pull :: others) ->
      let out := run (UpgradeAction.create_or_edit_pr
                        title' body' skills_repo user upgrade_branch) env' in
      let e1 := Ev listing (inr (pull :: others)) in
      (forall msg, fst out <> inl (PRModified msg))
      /\ trace (snd out) =
         [e1; Ev (pull_edit pull title' body') (env' _ [e1] (pull_edit pull title' body'))].
Proof.
  intros R. unfold run in R. rewrite create_pr_message_run in R.
  assert (Py.str_in marker body0 = true) as Hm.
  { destruct (env _ _ rev_list) as [f|out]; [discriminate|].
    destruct (bullets _ env _) as [[e|lines] s']; [discriminate|].
    cbn in R. inversion R; subst. apply str_in_app_l, footer_has_marker. }
  split; [exact Hm|].
  intros env' title' body' skills_repo user upgrade_branch pull others Hb listing L out e1.
  subst out e1. rewrite create_or_edit_pr_run.
  fold listing. rewrite L, Hb, Hm. cbn.
  split; [|reflexivity].
  intros msg. destruct (env' _ _ (pull_edit _ _ _)); discriminate.
Qed.

(** The body made of the header, the given bullet lines and the footer,
    letter by letter. *)
Lemma body_written (lines : string) :
  (header ++ lines) ++ footer
  = "This upgrades " ++ name (UpgradeAction.skill self)
    ++ " to include the following new commits:" ++ Py.nl ++ Py.nl
    ++ lines ++ Py.nl ++ Py.nl
    ++ "<sub>Created with [mycroft-skills-kit](https://github.com/mycroftai/mycroft-skills-kit) v"
    ++ version ++ "</sub>".
Proof.
  subst header footer. unfold UpgradeAction.body_header, UpgradeAction.footer.
  rewrite !append_assoc_str. reflexivity.
Qed.

(** C10, amended: when the rev-list output is empty, [create_pr_message]
    still iterates over one element, the empty string that splitting the
    empty output yields: it asks git for the subject of the empty sha.  When
    that, or the commit asked next, is refused, the run fails with that
    failure and there is no body; when both are answered, the body returned
    is the header, the one bullet [ - [<subject>](<link>)] and the footer.
    That body is never the one an empty list of bullets would give. *)
Theorem create_pr_message_empty_rev_list (env : Env) :
  env _ [] rev_list = inr EmptyString ->
  let e1 := Ev rev_list (inr EmptyString) in
  let show := show_call skill_git EmptyString in
  let commit_of := get_commit skill_repo EmptyString in
  let written (lines : string) :=
    "This upgrades " ++ name (UpgradeAction.skill self)
    ++ " to include the following new commits:" ++ Py.nl ++ Py.nl
    ++ lines ++ Py.nl ++ Py.nl
    ++ "<sub>Created with [mycroft-skills-kit](https://github.com/mycroftai/mycroft-skills-kit) v"
    ++ version ++ "</sub>" in
  Py.split Py.nl_char EmptyString = [EmptyString]
  /\ run (UpgradeAction.create_pr_message version self skill_git skill_repo) env =
     match env _ [e1] show with
     | inl f => (inl (External f), after [e1; Ev show (inl f)])
     | inr subject =>
         let e2 := Ev show (inr subject) in
         match env _ [e1; e2] commit_of with
         | inl f => (inl (External f), after [e1; e2; Ev commit_of (inl f)])
         | inr commit =>
             (inr ("Upgrade " ++ name (UpgradeAction.skill self),
                   written (" - [" ++ subject ++ "](" ++ html_url commit ++ ")")),
              after [e1; e2; Ev commit_of (inr commit)])
         end
     end
  /\ (header ++ Py.join Py.nl []) ++ footer = written EmptyString
  /\ forall subject link,
      written (" - [" ++ subject ++ "](" ++ link ++ ")") <> written EmptyString.
Proof.
  intros R e1 show commit_of written. split; [reflexivity|]. split; [|split].
  - unfold run. rewrite create_pr_message_run. cbn [trace st0]. rewrite R.
    subst bullets. cbn [Py.split UpgradeAction.bullets].
    rewrite bind_call. cbn [trace log st0 app].
    subst show commit_of e1. unfold show_call.
    destruct (env _ _ (git skill_git _)) as [f|subject]; [reflexivity|].
    rewrite bind_call. cbn [trace log st0 app lazy_submodule_name lazy_repo_git].
    destruct (env _ _ (get_commit _ _)) as [f|commit]; [reflexivity|].
    rewrite bind_ret, ret_run. unfold Py.join. cbn [String.concat].
    fold header footer. rewrite body_written. reflexivity.
  - apply body_written.
  - intros subject link H. subst written. cbv beta in H.
    apply (append_inv_head "This upgrades ") in H.
    apply append_inv_head in H. vm_compute in H. discriminate H.
Qed.

End CreatePrMessage.

(** ** Resolving the submodule path *)

(** The dictionary after one more tuple. *)
Lemma name_to_path_snoc (data : list SkillTuple) (n0 p u s n : string) :
  name_to_path (data ++ [(n0, p, u, s)]) !! n
  = if decide (n0 = n) then Some p else name_to_path data !! n.
Proof.
  unfold name_to_path. rewrite foldl_app. cbn [foldl].
  destruct (decide (n0 = n)) as [->|ne].
  - apply lookup_insert_eq.
  - rewrite lookup_insert_ne by exact ne. reflexivity.
Qed.

Lemma name_to_path_absent (n : string) (data : list SkillTuple) :
  name_to_path data !! n = None <-> ~ In n (map tuple_name data).
Proof.
  induction data as [|[[[n0 p] u] s] data IH] using rev_ind.
  - cbn. unfold name_to_path. cbn. rewrite lookup_empty. tauto.
  - rewrite name_to_path_snoc, map_app, in_app_iff. cbn.
    destruct (decide (n0 = n)) as [->|ne].
    + split; [discriminate | intros H; exfalso; apply H; auto].
    + rewrite IH. split; [intros H [?|[?|[]]]; auto | tauto].
Qed.

(** A name that is looked up successfully maps to the path of its last
    tuple in the listing. *)
Lemma name_to_path_present (n p : string) (data : list SkillTuple) :
  name_to_path data !! n = Some p ->
  exists before u s later,
    data = (before ++ (n, p, u, s) :: later)%list
    /\ ~ In n (map tuple_name later).
Proof.
  induction data as [|[[[n0 p0] u0] s0] data IH] using rev_ind.
  - unfold name_to_path. cbn. rewrite lookup_empty. discriminate.
  - rewrite name_to_path_snoc.
    destruct (decide (n0 = n)) as [->|ne].
    + intros [= ->]. exists data, u0, s0, []. split; [reflexivity | intros []].
    + intros H. destruct (IH H) as (before & u & s & later & -> & Hl).
      exists before, u, s, (later ++ [(n0, p0, u0, s0)])%list. split.
      * rewrite <- app_assoc. reflexivity.
      * rewrite map_app, in_app_iff. cbn. intros [?|[?|[]]]; auto.
Qed.

Section Resolve.
Variables (env : Env) (skill : SkillEntry) (registry : SkillRepo).
Variable data : list SkillTuple.

Let action := {| UpgradeAction.skill := skill; UpgradeAction.repo := registry |}.
Let skill_data := {| SkillData.entry := skill; SkillData.msminfo := registry |}.
Let asked := Ev (listing_call registry) (inr data).

Hypothesis listed : env _ [] (listing_call registry) = inr data.

Lemma find_submodule_path_run :
  run (UpgradeAction.find_submodule_path action) env =
  match name_to_path data !! name skill with
  | Some p => (inr p, after [asked])
  | None => (inl (NotUploaded (not_uploaded_message (name skill))), after [asked])
  end.
Proof.
  unfold run, UpgradeAction.find_submodule_path. rewrite bind_call.
  cbn [trace st0]. fold (listing_call registry) in *.
  change (UpgradeAction.repo action) with registry.
  fold (listing_call registry). rewrite listed.
  change (UpgradeAction.skill action) with skill.
  destruct (name_to_path data !! name skill); reflexivity.
Qed.

Lemma submodule_name_run :
  run (SkillData.submodule_name skill_data) env =
  match name_to_path data !! name skill with
  | Some p => (inr p, store_submodule_name p (after [asked]))
  | None => (inl (NotUploaded (not_uploaded_message (name skill))), after [asked])
  end.
Proof.
  unfold run, SkillData.submodule_name, Lazy. cbn [lazy_submodule_name st0].
  rewrite bind_call. cbn [trace st0].
  change (SkillData.msminfo skill_data) with registry.
  fold (listing_call registry). rewrite listed.
  change (SkillData.name skill_data) with (name skill).
  destruct (name_to_path data !! name skill); reflexivity.
Qed.

(** C5: when the plugin's name is among the names of the registry's
    listing, both resolutions return a path recorded for that name (the
    path of the last tuple of that name); when it is absent both raise
    [NotUploaded], having only read the listing: nothing else is called
    and nothing is memoized. *)
Theorem resolution_complete :
  (In (name skill) (map tuple_name data) ->
   exists p before u s later,
     data = (before ++ (name skill, p, u, s) :: later)%list
     /\ ~ In (name skill) (map tuple_name later)
     /\ run (UpgradeAction.find_submodule_path action) env
        = (inr p, after [asked])
     /\ run (SkillData.submodule_name skill_data) env
        = (inr p, store_submodule_name p (after [asked])))
  /\ (~ In (name skill) (map tuple_name data) ->
      run (UpgradeAction.find_submodule_path action) env
      = (inl (NotUploaded (not_uploaded_message (name skill))), after [asked])
      /\ run (SkillData.submodule_name skill_data) env
         = (inl (NotUploaded (not_uploaded_message (name skill))), after [asked])).
Proof.
  rewrite find_submodule_path_run, submodule_name_run. split.
  - intros Hin. destruct (name_to_path data !! name skill) as [p|] eqn:L.
    + destruct (name_to_path_present _ _ _ L) as (before & u & s & later & E & Hl).
      exists p, before, u, s, later. auto.
    + apply name_to_path_absent in L. contradiction.
  - intros Hout. apply name_to_path_absent in Hout. rewrite Hout. auto.
Qed.

End Resolve.

(** ** Readying the upgrade branch *)

Section BranchReady.
Variables (env : Env) (self : UpgradeAction.t) (repo_git skill_git : string).

Lemma perform_local_upgrade_steps s :
  UpgradeAction.perform_local_upgrade self repo_git skill_git env s =
  (Steps.sync_upstream repo_git skill_git ;;;
   Steps.branch_ready self repo_git ;;;
   Steps.diff_and_commit self repo_git skill_git) env s.
Proof.
  unfold UpgradeAction.perform_local_upgrade, Steps.sync_upstream,
    Steps.branch_ready, Steps.diff_and_commit.
  fold (Steps.upgrade_branch self).
  fold (Steps.delete_branch self repo_git) (Steps.create_branch self repo_git).
  repeat (rewrite ?bind_assoc, ?bind_suppress_call_, ?bind_call_, ?bind_call, ?bind_ret;
          try reflexivity;
          match goal with
          | |- context [match env ?X ?h ?c with _ => _ end] =>
              destruct (env X h c) as [[|?]|?]
          end;
          try reflexivity).
Qed.

Variables (registry : SkillRepo) (branch : string).

Let delete := Steps.delete_branch self repo_git.
Let create := Steps.create_branch self repo_git.
Let delete' := git (RepoData.git_wd registry) ["branch"; "-D"; branch].
Let create' := git (RepoData.git_wd registry) ["checkout"; "-b"; branch].
Let checkout' := git (RepoData.git_wd registry) ["checkout"; branch].

(** C6: the branch-ready step first asks git to delete the branch; when
    that succeeds or fails with [GitCommandError] (the branch does not
    exist) the step goes on all the same and asks git to create and check
    out the branch, and it is the creation that decides the step: a failed
    delete never aborts it.  This holds of lines 56-59 of
    [perform_local_upgrade] and of [RepoData.checkout_branch], which falls
    back to checking out the existing branch when the creation fails. *)
Theorem branch_ready_ignores_failed_delete s :
  (forall s0,
      UpgradeAction.perform_local_upgrade self repo_git skill_git env s0 =
      (Steps.sync_upstream repo_git skill_git ;;;
       Steps.branch_ready self repo_git ;;;
       Steps.diff_and_commit self repo_git skill_git) env s0)
  /\ (forall a,
      env _ (trace s) delete = a ->
      a = inl GitCommandError \/ (exists o, a = inr o) ->
      let s1 := log (Ev delete a) s in
      let b := env _ (trace s1) create in
      Steps.branch_ready self repo_git env s =
      (match b with inl f => inl (External f) | inr _ => inr tt end,
       log (Ev create b) s1))
  /\ (forall a,
      env _ (trace s) delete' = a ->
      a = inl GitCommandError \/ (exists o, a = inr o) ->
      let s1 := log (Ev delete' a) s in
      RepoData.checkout_branch registry branch env s =
      match env _ (trace s1) create' with
      | inr o => (inr tt, log (Ev create' (inr o)) s1)
      | inl GitCommandError =>
          let s2 := log (Ev create' (inl GitCommandError)) s1 in
          let c := env _ (trace s2) checkout' in
          (match c with inl f => inl (External f) | inr _ => inr tt end,
           log (Ev checkout' c) s2)
      | inl (OtherFailure w) =>
          (inl (External (OtherFailure w)),
           log (Ev create' (inl (OtherFailure w))) s1)
      end).
Proof.
  split; [exact perform_local_upgrade_steps|].
  split; intros a Ha Hok.
  - unfold Steps.branch_ready. rewrite bind_suppress_call_.
    fold delete. rewrite Ha.
    destruct Hok as [->|[o ->]]; cbv zeta; unfold call_; rewrite bind_call;
      fold create; destruct (env _ _ create); reflexivity.
  - unfold RepoData.checkout_branch. rewrite bind_suppress_call_.
    fold delete'. rewrite Ha.
    assert (forall s1,
      try_except_GitCommandError (call_ create') (call_ checkout') env s1 =
      match env _ (trace s1) create' with
      | inr o => (inr tt, log (Ev create' (inr o)) s1)
      | inl GitCommandError =>
          let s2 := log (Ev create' (inl GitCommandError)) s1 in
          let c := env _ (trace s2) checkout' in
          (match c with inl f => inl (External f) | inr _ => inr tt end,
           log (Ev checkout' c) s2)
      | inl (OtherFailure w) =>
          (inl (External (OtherFailure w)),
           log (Ev create' (inl (OtherFailure w))) s1)
      end) as T.
    { intros s1. unfold try_except_GitCommandError, call_, bind, call, ret.
      destruct (env _ (trace s1) create') as [[|w]|o]; try reflexivity.
      cbn [trace log]. destruct (env _ _ checkout'); reflexivity. }
    fold create' checkout'.
    destruct Hok as [->|[o ->]]; cbv zeta; apply T.
Qed.

End BranchReady.

(** ** The local upgrade, when the collaborators' calls succeed *)

Section LocalUpgradeSucceeding.
Variables (env : Env) (self : UpgradeAction.t).
Let registry := UpgradeAction.repo self.
Let n := name (UpgradeAction.skill self).
Let rp := repo_path registry.


End LocalUpgradeSucceeding.

Section UpgradeSucceeding.
Variables (env : Env) (self : SkillData.t).
Let registry := SkillData.msminfo self.
Let n := name (SkillData.entry self).
Let rp := repo_path registry.


End UpgradeSucceeding.

(** ** Paths *)




(** ** The two implementations compared *)

Section Compared.
Variables (env : Env) (skill : SkillEntry) (registry : SkillRepo).

Let action := {| UpgradeAction.skill := skill; UpgradeAction.repo := registry |}.
Let skill_data := {| SkillData.entry := skill; SkillData.msminfo := registry |}.


End Compared.



(** ** When the upgrade is already there *)

Lemma truthy_false (s : string) : Py.truthy s = false -> s = EmptyString.
Proof. destruct s; [reflexivity | discriminate]. Qed.

Section AlreadyUpdated.
Variable env : Env.

(** X17: [SkillData.upgrade] raises [AlreadyUpdated] exactly when the diff
    was answered with nothing and [ls-files] with something; nothing has been
    staged, committed, pushed or asked of the hosting service by then. *)
Lemma upgrade_already_updated_iff (self : SkillData.t) :
  let out := run (SkillData.upgrade self) env in
  ((exists msg, fst out = inl (AlreadyUpdated msg)) <->
   (git_answers "diff" (trace (snd out)) = [EmptyString]
    /\ exists l, git_answers "ls-files" (trace (snd out)) = [l]
                 /\ Py.truthy l = true))
  /\ ((exists msg, fst out = inl (AlreadyUpdated msg)) ->
      existsb is_add_commit_push_or_pr (trace (snd out)) = false).
Proof.
  post env. unfold SkillData.upgrade, SkillData.repo_git, SkillData.submodule_name,
    RepoData.checkout_branch, RepoData.git_wd.
  do 2 advance env.
  3: match goal with
     | |- context [name_to_path ?l !! ?n] =>
         destruct (name_to_path l !! n) as [sub|] eqn:L
     end.
  all: repeat advance env.
  all: try match goal with
       | |- context [Py.truthy ?d] => destruct (Py.truthy d) eqn:T
       end; tidy.
  all: repeat advance env.
  all: try match goal with
       | |- context [Py.truthy ?d] =>
           lazymatch goal with
           | _ : Py.truthy d = _ |- _ => fail
           | _ => destruct (Py.truthy d) eqn:T'
           end
       end; tidy.
  all: repeat advance env.
  all: subst Post; cbn.
  all: try (apply truthy_false in T; subst).
  all: split; [split|].
  all: try (intros [msg E]; discriminate E).
  all: try (intros [D _]; discriminate D).
  all: try (intros [_ (l0 & E & Tl)]; discriminate E).
  all: try (intros [D _]; injection D as ->; discriminate T).
  all: try (intros [_ (l0 & E & Tl)]; injection E as ->; congruence).
  all: try (intros _; reflexivity).
  all: try (intros _; split; [reflexivity|]; eexists; split; [reflexivity|assumption]).
  all: try (intros _; eexists; reflexivity).
Qed.

(** X4: [UpgradeAction.perform_local_upgrade] raises [AlreadyUpdated]
    exactly when the diff was answered with nothing: it never asks
    [ls-files], and nothing has been staged or committed by then. *)
Lemma perform_local_upgrade_already_updated_iff (self : UpgradeAction.t)
      (repo_git skill_git : string) :
  let out := run (UpgradeAction.perform_local_upgrade self repo_git skill_git) env in
  ((exists msg, fst out = inl (AlreadyUpdated msg)) <->
   git_answers "diff" (trace (snd out)) = [EmptyString])
  /\ git_answers "ls-files" (trace (snd out)) = []
  /\ ((exists msg, fst out = inl (AlreadyUpdated msg)) ->
      existsb is_add_commit_push_or_pr (trace (snd out)) = false).
Proof.
  post env. unfold UpgradeAction.perform_local_upgrade.
  repeat advance env.
  all: try match goal with
       | |- context [Py.truthy ?d] => destruct (Py.truthy d) eqn:T
       end; tidy.
  all: repeat advance env.
  all: subst Post; cbn.
  all: try (apply truthy_false in T; subst).
  all: split; [split|split; [reflexivity|]].
  all: try (intros [msg E]; discriminate E).
  all: try (intros D; discriminate D).
  all: try (intros D; injection D as ->; discriminate T).
  all: try (intros _; reflexivity).
  all: try (intros _; eexists; reflexivity).
Qed.

Variables (version : string) (self : UpgradeAction.t).




End AlreadyUpdated.

(** C1: the check of [UpgradeAction.perform_local_upgrade] leaves out the
    second condition.  Here the submodule path shows no difference and is not
    tracked ([ls-files] answers nothing): [perform_local_upgrade] raises
    [AlreadyUpdated] all the same, without asking [ls-files], whereas
    [SkillData.upgrade] stages the path and commits. *)
Theorem perform_local_upgrade_untracked_unchanged :
  let env := Examples.untracked_unchanged in
  let rp := repo_path Script.registry in
  let out := run (UpgradeAction.perform_local_upgrade
                    Examples.action rp Examples.skill_git) env in
  let out' := run (SkillData.upgrade Examples.skill_data) env in
  env _ [] (git rp ["ls-files"; "skill-weather"]) = inr EmptyString
  /\ git_answers "diff" (trace (snd out)) = [EmptyString]
  /\ git_answers "ls-files" (trace (snd out)) = []
  /\ outcome out = (inl (AlreadyUpdated (already_updated_message "skill-weather")), [])
  /\ git_answers "diff" (trace (snd out')) = [EmptyString]
  /\ git_answers "ls-files" (trace (snd out')) = [EmptyString]
  /\ outcome out' =
     (inr "upgrade/skill-weather",
      [Staged "/opt/mycroft/.skills-repo/skill-weather";
       Committed "--message=Upgrade skill-weather"]).
Proof. vm_compute. repeat split; reflexivity. Qed.

(** ** The bullets of the message *)

Section Bullets.
Variables (env : Env) (version : string) (self : UpgradeAction.t).
Variables (skill_git : string) (skill_repo : Repository).

(** The message returned has the title ["Upgrade <name>"] and a body made
    of the header, one bullet for each element of the split rev-list
    output, and the footer. *)
Lemma create_pr_message_shape title body s' :
  run (UpgradeAction.create_pr_message version self skill_git skill_repo) env
  = (inr (title, body), s') ->
  title = "Upgrade " ++ name (UpgradeAction.skill self)
  /\ exists out lines,
      env _ [] (rev_list_call (UpgradeAction.skill self) skill_git) = inr out
      /\ length lines = length (Py.split Py.nl_char out)
      /\ body = (UpgradeAction.body_header self ++ Py.join Py.nl lines)
                ++ UpgradeAction.footer version.
Proof.
  unfold run. rewrite create_pr_message_run. cbn [trace st0].
  destruct (env _ [] _) as [f|out]; [discriminate|].
  destruct (UpgradeAction.bullets _ _ _ env _) as [[e|lines] s2] eqn:B;
    [discriminate|].
  intros [= <- <- <-]. split; [reflexivity|].
  exists out, lines. split; [reflexivity|]. split; [|reflexivity].
  eapply bullets_length, B.
Qed.

End Bullets.

(** C7: with no commit between the recorded sha and HEAD the rev-list prints
    nothing, and yet the body returned lists a bullet: splitting the empty
    output yields one empty sha, for which a subject and a link are asked and
    rendered.  The rev-list names no commit, the body has one bullet line. *)
Theorem create_pr_message_no_new_commits :
  let out := Runs.message Examples.no_new_commits in
  git_answers "rev-list" (trace (snd out)) = [EmptyString]
  /\ Spec.commits_in_rev_list EmptyString = []
  /\ git_answers "show" (trace (snd out)) = ["Add retry"]
  /\ exists body,
      fst out = inr ("Upgrade skill-weather", body)
      /\ Spec.bullet_lines body
         = [" - [Add retry](https://github.com/dev/skill-weather/commit/)"].
Proof.
  cbv zeta. repeat split; try (vm_compute; reflexivity).
  eexists. split; vm_compute; reflexivity.
Qed.

(** ** The properties at work on example runs *)

(** A whole run of [perform]: two new upstream commits, no pull request yet.
    The submodule is staged and committed, the branch pushed, and the body
    lists the two commits in the order of the rev-list. *)
Example perform_opens_a_pull_request :
  let out := run (UpgradeAction.perform "0.3.1" Examples.action) Examples.upgradable in
  fst out = inr tt
  /\ changes (trace (snd out))
     = [Staged "/opt/mycroft/.skills-repo/skill-weather";
        Committed "--message=Upgrade skill-weather"]
  /\ existsb is_create_pull (trace (snd out)) = true
  /\ existsb is_pull_edit (trace (snd out)) = false.
Proof. vm_compute. repeat split; reflexivity. Qed.

Example message_lists_the_new_commits :
  exists body,
    fst (Runs.message Examples.upgradable) = inr ("Upgrade skill-weather", body)
    /\ Spec.bullet_lines body
       = [" - [Add retry](https://github.com/dev/skill-weather/commit/def456)";
          " - [Add retry](https://github.com/dev/skill-weather/commit/987fff)"].
Proof. eexists. split; vm_compute; reflexivity. Qed.

Lemma create_or_edit_pr_refuses_unmarked_witness :
  fst (Runs.reconcile (Examples.with_pulls [Examples.hand_edited]))
  = inl (PRModified "Not updating description since it was not autogenerated").
Proof.
  apply (create_or_edit_pr_refuses_unmarked
           (Examples.with_pulls [Examples.hand_edited])
           "Upgrade skill-weather" "This upgrades skill-weather" Script.some_repo
           Examples.me "upgrade/skill-weather" Examples.hand_edited []
           "Please merge, fixes the forecast.");
    reflexivity.
Defined.

Lemma create_or_edit_pr_without_description_witness :
  fst (Runs.reconcile (Examples.with_pulls [Examples.no_description; Examples.generated]))
  = inl TypeError.
Proof.
  unfold Runs.reconcile.
  rewrite (create_or_edit_pr_without_description
             (Examples.with_pulls [Examples.no_description; Examples.generated])
             "Upgrade skill-weather" "This upgrades skill-weather" Script.some_repo
             Examples.me "upgrade/skill-weather"
             Examples.no_description [Examples.generated] eq_refl eq_refl).
  reflexivity.
Defined.

Lemma create_or_edit_pr_edits_marked_witness :
  fst (Runs.reconcile (Examples.with_pulls [Examples.generated]))
  = inr Examples.generated.
Proof.
  destruct (create_or_edit_pr_edits_marked
              (Examples.with_pulls [Examples.generated])
              "Upgrade skill-weather" "This upgrades skill-weather" Script.some_repo
              Examples.me "upgrade/skill-weather") as [H _].
  apply (H Examples.generated []
           ("This upgrades skill-weather" ++ UpgradeAction.footer "0.3.1")
           eq_refl eq_refl eq_refl).
Defined.

Lemma create_or_edit_pr_takes_first_witness :
  fst (Runs.reconcile (Examples.with_pulls [Examples.generated; Examples.hand_edited]))
  = inr Examples.generated.
Proof.
  unfold Runs.reconcile.
  rewrite (create_or_edit_pr_takes_first
             (Examples.with_pulls [Examples.generated; Examples.hand_edited])
             "Upgrade skill-weather" "This upgrades skill-weather" Script.some_repo
             Examples.me "upgrade/skill-weather"
             Examples.generated Examples.hand_edited [] eq_refl).
  reflexivity.
Defined.

Lemma generated_body_is_editable_witness :
  exists title body,
    fst (Runs.message Examples.upgradable) = inr (title, body)
    /\ Py.str_in marker body = true.
Proof.
  destruct (fst (Runs.message Examples.upgradable)) as [e|[title body]] eqn:R.
  - vm_compute in R. discriminate R.
  - exists title, body. split; [reflexivity|].
    exact (proj1 (generated_body_is_editable
                    "0.3.1" Examples.action Examples.skill_git Runs.skill_repo
                    Examples.upgradable title body R)).
Defined.

Lemma create_pr_message_empty_rev_list_witness :
  fst (Runs.message Examples.no_new_commits)
  = inr ("Upgrade skill-weather",
         "This upgrades skill-weather to include the following new commits:"
         ++ Py.nl ++ Py.nl
         ++ " - [Add retry](https://github.com/dev/skill-weather/commit/)"
         ++ Py.nl ++ Py.nl
         ++ "<sub>Created with [mycroft-skills-kit](https://github.com/mycroftai/mycroft-skills-kit) v0.3.1</sub>").
Proof.
  unfold Runs.message.
  rewrite (proj1 (proj2 (create_pr_message_empty_rev_list
                           "0.3.1" Examples.action Examples.skill_git Runs.skill_repo
                           Examples.no_new_commits eq_refl))).
  reflexivity.
Defined.

(** C10, as stated, fails: here the rev-list prints nothing and git refuses
    the empty revision, as it does; one element is iterated over, yet no
    body is generated at all, with one bullet or otherwise. *)
Lemma create_pr_message_empty_sha_refused :
  let out := Runs.message Examples.empty_sha_refused in
  git_answers "rev-list" (trace (snd out)) = [EmptyString]
  /\ show_shas (trace (snd out)) = [EmptyString]
  /\ fst out = inl (External GitCommandError)
  /\ ~ Claimed.one_bullet_body out.
Proof.
  cbv zeta. repeat split; try (vm_compute; reflexivity).
  intros (title & body & E & _). vm_compute in E. discriminate E.
Qed.

(** C3: the pull request listed for the base and head has no description,
    so its body is [None] and does not contain the marker; the test for the
    marker raises [TypeError] and [create_or_edit_pr] ends with that instead
    of [PRModified].  The pull request is not edited. *)
Theorem create_or_edit_pr_no_description :
  let out := Runs.reconcile (Examples.with_pulls [Examples.no_description]) in
  github.body Examples.no_description = None
  /\ fst out = inl TypeError
  /\ (forall msg, fst out <> inl (PRModified msg))
  /\ trace (snd out)
     = [Ev (pulls_listing Script.some_repo Examples.me "upgrade/skill-weather")
           (inr [Examples.no_description])]
  /\ existsb is_pull_edit (trace (snd out)) = false.
Proof.
  cbv zeta. repeat split; try (vm_compute; reflexivity).
  intros msg E. vm_compute in E. discriminate E.
Qed.

Lemma resolution_complete_witness :
  exists p,
    run (UpgradeAction.find_submodule_path Examples.action) Examples.upgradable
    = (inr p, after [Ev (listing_call Script.registry) (inr Script.listing)]).
Proof.
  destruct (resolution_complete Examples.upgradable Script.weather Script.registry
              Script.listing eq_refl) as [H _].
  destruct H as (p & before & u & s & later & _ & _ & R & _).
  - cbn. auto.
  - exists p. exact R.
Defined.

Lemma branch_ready_ignores_failed_delete_witness :
  fst (Steps.branch_ready Examples.action (repo_path Script.registry)
         Examples.branch_absent st0) = inr tt.
Proof.
  destruct (branch_ready_ignores_failed_delete
              Examples.branch_absent Examples.action (repo_path Script.registry)
              Examples.skill_git Script.registry "upgrade/skill-weather" st0)
    as (_ & H & _).
  rewrite (H (inl GitCommandError) eq_refl (or_introl eq_refl)).
  reflexivity.
Defined.


(** * The rest of the code *)

Ltac lookup_name :=
  match goal with
  | |- context [name_to_path ?l !! ?n] =>
      let L := fresh "L" in destruct (name_to_path l !! n) as [sub|] eqn:L
  end.

Ltac truthy_cases T :=
  match goal with
  | |- context [Py.truthy ?d] =>
      lazymatch goal with
      | _ : Py.truthy d = _ |- _ => fail
      | _ => destruct (Py.truthy d) eqn:T
      end
  end.

(** ** Constructing the action *)

Section Constructing.
Variable samefile : string -> string -> Failure + bool.
Variables (repo : SkillRepo) (skill_folder : string).

(** A skill that the constructor passes over: it is not local, or it is
    local and its path is another file than the folder given. *)
Let passed_over (skill : SkillEntry) : Prop :=
  is_local skill = false \/ samefile (path skill) skill_folder = inr false.

Lemma skill_matches_nil skills :
  Init.skill_matches samefile skills skill_folder = inr [] <->
  Forall passed_over skills.
Proof.
  subst passed_over. induction skills as [|skill rest IH].
  - split; [constructor | reflexivity].
  - rewrite Forall_cons_iff, <- IH. cbn [Init.skill_matches].
    destruct (is_local skill);
      destruct (samefile (path skill) skill_folder) as [f|[|]];
      destruct (Init.skill_matches samefile rest skill_folder) as [f'|[|x l]];
      intuition congruence.
Qed.

Lemma skill_matches_first skills skill others :
  Init.skill_matches samefile skills skill_folder = inr (skill :: others) ->
  exists before later,
    skills = (before ++ skill :: later)%list
    /\ Forall passed_over before
    /\ is_local skill = true
    /\ samefile (path skill) skill_folder = inr true.
Proof.
  subst passed_over. revert skill others.
  induction skills as [|s0 rest IH]; cbn; intros skill others; [discriminate|].
  destruct (is_local s0) eqn:Loc.
  - destruct (samefile (path s0) skill_folder) as [f|[|]] eqn:Same; [discriminate| |].
    + destruct (Init.skill_matches samefile rest skill_folder) as [f|l]; [discriminate|].
      intros [= -> ->]. exists [], rest. repeat split; auto.
    + destruct (Init.skill_matches samefile rest skill_folder) as [f|l]; [discriminate|].
      intros [= ->]. destruct (IH _ _ eq_refl) as (before & later & -> & Hb & Hl & Hs).
      exists (s0 :: before), later. repeat split; auto.
  - destruct (Init.skill_matches samefile rest skill_folder) as [f|l]; [discriminate|].
    intros [= ->]. destruct (IH _ _ eq_refl) as (before & later & -> & Hb & Hl & Hs).
    exists (s0 :: before), later. repeat split; auto.
Qed.

(** X1: when the constructor succeeds, the skill it keeps is the first of
    the listed skills that is local and whose path is the same file as the
    folder given: every skill before it was passed over.  The registry it
    keeps is the one of the skills manager. *)
Theorem init_takes_first_local_match skills action :
  Init.init samefile skills repo skill_folder = inr action ->
  UpgradeAction.repo action = repo
  /\ exists before later,
      skills = (before ++ UpgradeAction.skill action :: later)%list
      /\ Forall passed_over before
      /\ is_local (UpgradeAction.skill action) = true
      /\ samefile (path (UpgradeAction.skill action)) skill_folder = inr true.
Proof.
  unfold Init.init.
  destruct (Init.skill_matches samefile skills skill_folder) as [f|[|skill others]] eqn:E;
    try discriminate.
  intros [= <-]. split; [reflexivity|]. cbn. eapply skill_matches_first, E.
Qed.

(** X2: the constructor raises [NotUploaded] exactly when every listed
    skill is passed over; a skill that is not local is passed over without
    its path being examined. *)
Theorem init_not_uploaded_iff skills :
  (exists msg, Init.init samefile skills repo skill_folder = inl (NotUploaded msg))
  <-> Forall passed_over skills.
Proof.
  rewrite <- skill_matches_nil. unfold Init.init.
  destruct (Init.skill_matches samefile skills skill_folder) as [f|[|skill others]].
  - split; [intros [msg E]; discriminate E | discriminate].
  - split; [reflexivity | eauto].
  - split; [intros [msg E]; discriminate E | discriminate].
Qed.

End Constructing.


(** ** Loading and upgrading locally *)

Section LocalSteps.
Variables (env : Env) (self : UpgradeAction.t).
Let registry := UpgradeAction.repo self.
Let n := name (UpgradeAction.skill self).
Let rp := repo_path registry.

(** X3: when [load_git_repos] returns, the plugin is registered under some
    path, the one git command run was [submodule update --init] of that path
    in the registry, and the pair returned is the registry directory and
    that directory joined with the path. *)
Theorem load_git_repos_returns repo_git skill_git :
  fst (run (UpgradeAction.load_git_repos self) env) = inr (repo_git, skill_git) ->
  exists data sub o,
    name_to_path data !! n = Some sub
    /\ repo_git = rp
    /\ skill_git = Py.path_join rp sub
    /\ trace (snd (run (UpgradeAction.load_git_repos self) env))
       = [Ev (listing_call registry) (inr data);
          Ev (git rp ["submodule"; "update"; "--init"; sub]) (inr o)].
Proof.
  post env. unfold UpgradeAction.load_git_repos, UpgradeAction.find_submodule_path.
  fold registry n rp.
  advance env. lookup_name.
  2:{ rewrite bind_raise. subst Post. cbn. discriminate. }
  repeat advance env.
  subst Post. cbn. intros [= <- <-]. eexists _, _, _. rewrite L. repeat split.
Qed.

(** X5: when [perform_local_upgrade] returns, it returns
    ["upgrade/<name>"], and the run was exactly these nine git commands in
    this order, each successful but possibly the delete: the hard reset is
    to the ref that [symbolic-ref] answered, the diff was not empty, and the
    commit comes last. *)
Theorem perform_local_upgrade_returns repo_git skill_git branch :
  let out := run (UpgradeAction.perform_local_upgrade self repo_git skill_git) env in
  fst out = inr branch ->
  branch = "upgrade/" ++ n
  /\ exists o1 o2 ref o4 a5 o6 d o8 o9,
      trace (snd out)
      = [Ev (git repo_git ["reset"]) (inr o1);
         Ev (git skill_git ["fetch"]) (inr o2);
         Ev (git skill_git ["symbolic-ref"; "refs/remotes/origin/HEAD"]) (inr ref);
         Ev (git skill_git ["reset"; "--hard"; ref]) (inr o4);
         Ev (git repo_git ["branch"; "-D"; branch]) a5;
         Ev (git repo_git ["checkout"; "-b"; branch]) (inr o6);
         Ev (git repo_git ["diff"; skill_git]) (inr d);
         Ev (git repo_git ["add"; skill_git]) (inr o8);
         Ev (git repo_git ["commit"; "--message=Upgrade " ++ n]) (inr o9)]
      /\ Py.truthy d = true
      /\ (a5 = inl GitCommandError \/ exists o5, a5 = inr o5).
Proof.
  post env. unfold UpgradeAction.perform_local_upgrade. fold n.
  repeat advance env.
  all: truthy_cases T; tidy.
  all: repeat advance env.
  all: subst Post; cbn; try discriminate.
  all: intros [= <-]; split; [reflexivity|].
  all: eexists _, _, _, _, _, _, _, _, _; split; [reflexivity|]; split; [exact T|]; eauto.
Qed.

End LocalSteps.

Section UpgradeSteps.
Variables (env : Env) (self : SkillData.t).
Let registry := SkillData.msminfo self.
Let n := name (SkillData.entry self).
Let rp := repo_path registry.


(** X19: when [SkillData.upgrade] raises [NotUploaded], the listing of the
    registry is the only call it made: the registry was not refreshed
    first, and nothing was memoized. *)
Theorem upgrade_unregistered msg :
  let out := run (SkillData.upgrade self) env in
  fst out = inl (NotUploaded msg) ->
  exists data,
    snd out = after [Ev (listing_call registry) (inr data)]
    /\ ~ In n (map tuple_name data).
Proof.
  post env. unfold SkillData.upgrade, SkillData.repo_git, SkillData.submodule_name,
    RepoData.checkout_branch, RepoData.git_wd.
  fold registry rp. change (SkillData.name self) with n.
  do 2 advance env. lookup_name.
  2:{ rewrite raise_run. subst Post. cbn. intros _. eexists. split; [reflexivity|].
      apply name_to_path_absent, L. }
  repeat advance env.
  all: try (subst Post; cbn; discriminate).
  all: truthy_cases T; tidy.
  all: repeat advance env.
  all: try (subst Post; cbn; discriminate).
  all: try (truthy_cases T'; tidy).
  all: repeat advance env.
  all: subst Post; cbn; discriminate.
Qed.

End UpgradeSteps.

(** ** What the message is made from *)

Section MessageTrace.
Variables (env : Env) (version : string) (self : UpgradeAction.t).
Variables (skill_git : string) (skill_repo : Repository).

(** What a run of [bullets] adds to the trace: for each sha in turn, the
    subject asked of git and the commit asked of the hosting service; the
    lines returned are rendered from the answers. *)
Lemma bullets_trace shas : forall s r s',
  UpgradeAction.bullets skill_git skill_repo shas env s = (r, s') ->
  exists ext,
    trace s' = (trace s ++ ext)%list
    /\ forallb is_message_query ext = true
    /\ git_answers "rev-list" ext = []
    /\ match r with
       | inl e => exists f, e = External f
       | inr lines =>
           show_shas ext = shas
           /\ commit_shas ext = shas
           /\ lines = render_bullets (git_answers "show" ext) (commit_links ext)
       end.
Proof.
  induction shas as [|sha0 rest IH]; intros s r s' R.
  - cbn in R. injection R as <- <-. exists []. rewrite app_nil_r. cbn. repeat split.
  - cbn [UpgradeAction.bullets] in R. rewrite bind_call in R.
    destruct (env _ (trace s) _) as [f|subject] eqn:A1.
    { injection R as <- <-. eexists [_]. cbn. repeat split; eauto. }
    rewrite bind_call in R.
    destruct (env _ _ (get_commit _ _)) as [f|commit] eqn:A2.
    { injection R as <- <-. eexists [_; _]. cbn. rewrite <- app_assoc.
      repeat split; eauto. }
    rewrite bind_run in R.
    destruct (UpgradeAction.bullets _ _ rest env _) as [[e0|ls] s2] eqn:B;
      destruct (IH _ _ _ B) as (ext & Tr & Q & NoRev & Rest);
      cbn [trace log] in Tr; injection R as <- <-;
      exists (Ev (git skill_git ["show"; "--format=%s"; "-s"; sha0]) (inr subject)
              :: Ev (get_commit skill_repo sha0) (inr commit) :: ext);
      (split; [rewrite Tr, <- !app_assoc; reflexivity|]);
      (split; [cbn; exact Q|]); (split; [cbn; exact NoRev|]).
    + exact Rest.
    + destruct Rest as (<- & S2 & ->). split; [reflexivity|].
      split; [|reflexivity].
      change (sha0 :: commit_shas ext = sha0 :: show_shas ext). f_equal. exact S2.
Qed.

Let rev_list := rev_list_call (UpgradeAction.skill self) skill_git.

Lemma create_pr_message_trace s r s' :
  UpgradeAction.create_pr_message version self skill_git skill_repo env s = (r, s') ->
  exists ext,
    trace s' = (trace s ++ ext)%list
    /\ forallb is_message_query ext = true
    /\ match r with
       | inl e => exists f, e = External f
       | inr (title, body) =>
           title = "Upgrade " ++ name (UpgradeAction.skill self)
           /\ exists out,
               git_answers "rev-list" ext = [out]
               /\ show_shas ext = Py.split Py.nl_char out
               /\ commit_shas ext = Py.split Py.nl_char out
               /\ body = (UpgradeAction.body_header self
                          ++ Py.join Py.nl (render_bullets (git_answers "show" ext)
                                                           (commit_links ext)))
                         ++ UpgradeAction.footer version
       end.
Proof.
  rewrite create_pr_message_run. fold rev_list.
  destruct (env _ (trace s) rev_list) as [f|out] eqn:A.
  { intros [= <- <-]. eexists [_]. cbn. repeat split; eauto. }
  destruct (UpgradeAction.bullets _ _ _ env _) as [[e|lines] s2] eqn:B;
    destruct (bullets_trace _ _ _ _ B) as (ext & Tr & Q & NoRev & Rest);
    cbn [trace log] in Tr; intros [= <- <-];
    exists (Ev rev_list (inr out) :: ext);
    (split; [rewrite Tr, <- app_assoc; reflexivity|]);
    (split; [cbn; exact Q|]).
  - exact Rest.
  - destruct Rest as (S1 & S2 & ->). split; [reflexivity|].
    exists out. split; [|split; [exact S1|split; [exact S2|reflexivity]]].
    change ((out :: git_answers "rev-list" ext) = [out]). rewrite NoRev. reflexivity.
Qed.

(** X6: [create_pr_message] raises nothing of its own: when it fails, a
    collaborator failed, and up to then it only asked for the rev-list, for
    subjects and for commits. *)
Theorem create_pr_message_fails_only_externally e s' :
  run (UpgradeAction.create_pr_message version self skill_git skill_repo) env
  = (inl e, s') ->
  (exists f, e = External f)
  /\ forallb is_message_query (trace s') = true.
Proof.
  intros R. destruct (create_pr_message_trace _ _ _ R) as (ext & Tr & Q & F).
  cbn in Tr. rewrite Tr. auto.
Qed.

(** X7: when [create_pr_message] returns, one rev-list was asked; the
    subject and the commit were asked for each element of its split output,
    in that order; the title is ["Upgrade <name>"] and the body is the
    header, the bullets rendered from the subjects and links answered,
    joined by newlines, and the footer. *)
Theorem create_pr_message_follows_rev_list title body s' :
  run (UpgradeAction.create_pr_message version self skill_git skill_repo) env
  = (inr (title, body), s') ->
  title = "Upgrade " ++ name (UpgradeAction.skill self)
  /\ exists out,
      git_answers "rev-list" (trace s') = [out]
      /\ show_shas (trace s') = Py.split Py.nl_char out
      /\ commit_shas (trace s') = Py.split Py.nl_char out
      /\ body = (UpgradeAction.body_header self
                 ++ Py.join Py.nl (render_bullets (git_answers "show" (trace s'))
                                                  (commit_links (trace s'))))
                ++ UpgradeAction.footer version.
Proof.
  intros R. destruct (create_pr_message_trace _ _ _ R) as (ext & Tr & Q & F).
  cbn in Tr. rewrite Tr. exact F.
Qed.

End MessageTrace.

(** The calls of [create_pr_message] change nothing: they stage, commit and
    push nothing and touch no pull request. *)
Lemma message_queries_change_nothing ext :
  forallb is_message_query ext = true ->
  changes ext = []
  /\ existsb is_push ext = false
  /\ existsb is_pull_edit ext = false
  /\ existsb is_create_pull ext = false
  /\ existsb is_add_commit_push_or_pr ext = false
  /\ registry_listings ext = []
  /\ pushes ext = [].
Proof.
  induction ext as [|[X c r] ext IH]; [cbn; repeat split|].
  cbn [forallb]. rewrite andb_true_iff. intros [Q Qs].
  destruct (IH Qs) as (C & P & E & K & A & RL & PU).
  unfold changes, registry_listings, pushes in *. cbn [flat_map existsb].
  rewrite C, P, E, K, A, RL, PU.
  destruct c; try discriminate Q; destruct r as [f|o]; cbn; try (repeat split; fail).
  all: unfold is_message_query in Q; cbn in Q; rewrite orb_false_r in Q.
  all: destruct argv as [|c0 argv]; [discriminate Q|].
  all: apply orb_true_iff in Q; destruct Q as [Q|Q]; apply String.eqb_eq in Q;
    subst c0; destruct argv as [|a1 [|a2 argv]]; cbn; repeat split.
Qed.


(** ** A whole run of [perform] *)

Lemma changes_app (a b : list Event) : changes (a ++ b) = (changes a ++ changes b)%list.
Proof. unfold changes. apply flat_map_app. Qed.

Lemma registry_listings_app (a b : list Event) :
  registry_listings (a ++ b) = (registry_listings a ++ registry_listings b)%list.
Proof. unfold registry_listings. apply flat_map_app. Qed.

Lemma pushes_app (a b : list Event) : pushes (a ++ b) = (pushes a ++ pushes b)%list.
Proof. unfold pushes. apply flat_map_app. Qed.

Section Perform.
Variables (env : Env) (version : string) (self : UpgradeAction.t).
Let registry := UpgradeAction.repo self.
Let n := name (UpgradeAction.skill self).
Let rp := repo_path registry.

(** How a run of [perform] can end, and what it has done by then. *)
Lemma perform_outcomes :
  let out := run (UpgradeAction.perform version self) env in
  match fst out with
  | inl (NotUploaded _) =>
      exists u data,
        trace (snd out)
        = [Ev (repo_update registry) (inr u); Ev (listing_call registry) (inr data)]
        /\ ~ In n (map tuple_name data)
  | inl (AlreadyUpdated _) => changes (trace (snd out)) = []
  | inl (PRModified _) | inl TypeError =>
      (exists data sub,
          registry_listings (trace (snd out)) = [data]
          /\ name_to_path data !! n = Some sub
          /\ changes (trace (snd out))
             = [Staged (Py.path_join rp (Py.path_join rp sub));
                Committed ("--message=Upgrade " ++ n)])
      /\ pushes (trace (snd out))
         = [["git"; "push"; "-u"; "fork"; "upgrade/" ++ n; "--force"]]
      /\ existsb is_push (trace (snd out)) = true
      /\ existsb is_pull_edit (trace (snd out)) = false
      /\ existsb is_create_pull (trace (snd out)) = false
  | inr _ =>
      (exists data sub,
          registry_listings (trace (snd out)) = [data]
          /\ name_to_path data !! n = Some sub
          /\ changes (trace (snd out))
             = [Staged (Py.path_join rp (Py.path_join rp sub));
                Committed ("--message=Upgrade " ++ n)])
      /\ pushes (trace (snd out))
         = [["git"; "push"; "-u"; "fork"; "upgrade/" ++ n; "--force"]]
      /\ existsb is_push (trace (snd out)) = true
      /\ xorb (existsb is_pull_edit (trace (snd out)))
              (existsb is_create_pull (trace (snd out))) = true
  | inl (External _) => True
  end.
Proof.
  post env. unfold UpgradeAction.perform, UpgradeAction.load_git_repos,
    UpgradeAction.find_submodule_path, UpgradeAction.perform_local_upgrade,
    UpgradeAction.setup_fork, UpgradeAction.push_to_fork,
    UpgradeAction.load_skill_repo, UpgradeAction.create_or_edit_pr.
  fold registry n rp.
  assert (forall f s, Post (inl (External f), s)) as Ext.
  { intros f s. subst Post. exact I. }
  do 2 (advance env; try apply Ext).
  match goal with
  | |- context [name_to_path ?l !! n] => destruct (name_to_path l !! n) as [sub|] eqn:L
  end.
  2:{ rewrite bind_raise. subst Post. cbn. eexists _, _. split; [reflexivity|].
      apply name_to_path_absent, L. }
  repeat (advance env; try apply Ext).
  all: match goal with
       | |- context [Py.truthy ?d] => destruct (Py.truthy d) eqn:T
       end; tidy.
  all: repeat (advance env; try apply Ext).
  all: try (subst Post; cbn; reflexivity).
  all: rewrite bind_run.
  all: match goal with
       | |- context [UpgradeAction.create_pr_message ?v ?a ?g ?r env ?s] =>
           destruct (UpgradeAction.create_pr_message v a g r env s)
             as [[e|msg] s'] eqn:R;
           destruct (create_pr_message_trace _ _ _ _ _ _ _ _ R) as (ext & Tr & Q & F);
           destruct (message_queries_change_nothing _ Q)
             as (C & P & E & K & _ & RL & PU);
           cbn [trace log st0] in Tr
       end.
  all: try (destruct F as [f ->]; apply Ext).
  all: repeat (advance env; try apply Ext).
  all: match goal with
       | |- context [match ?l with [] => _ | _ :: _ => _ end] =>
           destruct l as [|pull others]
       end.
  all: try (rewrite bind_call; tidy; destruct (env _ _ _) as [f|?]; [apply Ext|]).
  all: try (destruct (github.body pull) as [pull_body|];
            [destruct (Py.str_in marker pull_body)|]).
  all: repeat (advance env; try apply Ext).
  all: try (rewrite call__run; tidy;
            match goal with
            | |- context [match env ?X ?h ?c with _ => _ end] =>
                destruct (env X h c); [apply Ext|]
            end).
  all: subst Post; cbn [fst snd trace log].
  all: rewrite ?changes_app, ?existsb_app, ?registry_listings_app, ?pushes_app, Tr,
         ?changes_app, ?existsb_app, ?registry_listings_app, ?pushes_app,
         ?C, ?P, ?E, ?K, ?RL, ?PU.
  all: cbn [changes registry_listings pushes flat_map change_of existsb is_push
            is_pull_edit is_create_pull app orb xorb String.eqb Ascii.eqb Bool.eqb].
  all: repeat match goal with
              | |- _ /\ _ => split
              | |- exists _, _ => eexists
              end; try reflexivity; try exact L.
Qed.

(** X12: a run of [perform] that ends in [NotUploaded] has refreshed the
    registry and listed it, and nothing else: no git command was run. *)
Theorem perform_unregistered msg :
  let out := run (UpgradeAction.perform version self) env in
  fst out = inl (NotUploaded msg) ->
  exists u data,
    trace (snd out)
    = [Ev (repo_update registry) (inr u); Ev (listing_call registry) (inr data)]
    /\ ~ In n (map tuple_name data).
Proof.
  cbv zeta. intros R. pose proof perform_outcomes as H. cbv zeta in H.
  rewrite R in H. exact H.
Qed.



End Perform.

(** ** The fork and the push *)

Lemma list_in_In (x : string) (l : list string) :
  Py.list_in x l = true <-> In x l.
Proof.
  unfold Py.list_in. rewrite existsb_exists. split.
  - intros (y & Hy & E). apply String.eqb_eq in E. subst. exact Hy.
  - intros H. exists x. split; [exact H | apply String.eqb_refl].
Qed.

(** Follow each answer the collaborator can give to the call the run is
    waiting on. *)
Ltac answer env :=
  match goal with
  | |- context [match env ?X ?h ?c with _ => _ end] => destruct (env X h c)
  end.

Section Fork.
Variables (env : Env) (self : UpgradeAction.t).

(** X8: [setup_fork] repoints the remote with [set-url] when one of the
    lines that [git remote] printed is exactly ["fork"], and adds it with
    [add] otherwise; either way the URL is that of the fork just created. *)
Theorem setup_fork_chooses_command repo_git user skills_repo fork out :
  let forked := Ev (create_fork user skills_repo) (inr fork) in
  let listed := Ev (git repo_git ["remote"]) (inr out) in
  env _ [] (create_fork user skills_repo) = inr fork ->
  env _ [forked] (git repo_git ["remote"]) = inr out ->
  exists command a,
    trace (snd (run (UpgradeAction.setup_fork repo_git user skills_repo) env))
    = [forked; listed;
       Ev (git repo_git ["remote"; command; "fork"; repo_html_url fork]) a]
    /\ (command = "set-url" /\ In "fork" (Py.split Py.nl_char out)
        \/ command = "add" /\ ~ In "fork" (Py.split Py.nl_char out)).
Proof.
  intros forked listed F R. unfold run, UpgradeAction.setup_fork.
  rewrite bind_call. cbn [trace st0]. rewrite F.
  rewrite bind_call. cbn [trace log st0 app]. fold forked. rewrite R.
  rewrite call__run. cbn [trace log st0 app].
  destruct (Py.list_in "fork" (Py.split Py.nl_char out)) eqn:I.
  - exists "set-url",
      (env _ [forked; listed]
           (git repo_git ["remote"; "set-url"; "fork"; repo_html_url fork])).
    split; [unfold listed, forked; answer env; reflexivity|].
    left. split; [reflexivity|]. apply list_in_In, I.
  - exists "add",
      (env _ [forked; listed]
           (git repo_git ["remote"; "add"; "fork"; repo_html_url fork])).
    split; [unfold listed, forked; answer env; reflexivity|].
    right. split; [reflexivity|]. rewrite <- list_in_In, I. discriminate.
Qed.

(** X9: [push_to_fork] does not look at the exit code of [git push]:
    whatever the code, it returns normally after changing directory and
    running the push. *)
Theorem push_to_fork_ignores_exit_code upgrade_branch u (code : Z) :
  let dir := chdir (repo_path (UpgradeAction.repo self)) in
  let push := subprocess_call
                ["git"; "push"; "-u"; "fork"; upgrade_branch; "--force"] None in
  env _ [] dir = inr u ->
  env _ [Ev dir (inr u)] push = inr code ->
  run (UpgradeAction.push_to_fork self upgrade_branch) env
  = (inr tt, after [Ev dir (inr u); Ev push (inr code)]).
Proof.
  intros dir push D P. unfold run, UpgradeAction.push_to_fork.
  rewrite bind_call. cbn [trace st0]. fold dir. rewrite D.
  rewrite call__run. cbn [trace log st0 app]. fold push. rewrite P. reflexivity.
Qed.

End Fork.

(** ** More on the pull request *)

Section MoreOnPulls.
Variables (env : Env) (title body : string) (skills_repo : Repository)
          (user : User) (upgrade_branch : string).

Let listing := pulls_listing skills_repo user upgrade_branch.
Let out := run (UpgradeAction.create_or_edit_pr
                  title body skills_repo user upgrade_branch) env.

(** X10: when the listing is empty, [create_or_edit_pr] creates a pull
    request with the title and body given, from [<login>:<branch>] into the
    default branch, and returns it. *)
Theorem create_or_edit_pr_creates_when_none :
  env _ [] listing = inr [] ->
  let creation := create_pull skills_repo title body (default_branch skills_repo)
                              (login user ++ ":" ++ upgrade_branch) in
  let a := env _ [Ev listing (inr [])] creation in
  out = (match a with inl f => inl (External f) | inr pull => inr pull end,
         after [Ev listing (inr []); Ev creation a]).
Proof.
  intros L creation a. subst out. rewrite create_or_edit_pr_run.
  fold listing. rewrite L. reflexivity.
Qed.

(** X11: [create_or_edit_pr] starts with the listing and makes at most one
    call more; it never both edits and creates; it raises neither
    [NotUploaded] nor [AlreadyUpdated]. *)
Theorem create_or_edit_pr_calls :
  (exists a rest,
      trace (snd out) = Ev listing a :: rest /\ length rest <= 1)
  /\ existsb is_pull_edit (trace (snd out))
     && existsb is_create_pull (trace (snd out)) = false
  /\ match fst out with
     | inl (NotUploaded _) | inl (AlreadyUpdated _) => False
     | _ => True
     end.
Proof.
  subst out. rewrite create_or_edit_pr_run. fold listing.
  destruct (env _ [] listing) as [f|[|pull others]]; cbn.
  - repeat split; eauto.
  - answer env; cbn; repeat split; eauto.
  - destruct (github.body pull) as [pull_body|];
      [destruct (Py.str_in marker pull_body)|]; cbn;
      try (answer env; cbn); repeat split; eauto.
Qed.

End MoreOnPulls.

(** ** Failures that are not suppressed *)

Section NotSuppressed.
Variables (env : Env) (registry : SkillRepo) (branch : string).

(** X16: [checkout_branch] suppresses [GitCommandError] only: any other
    failure of the delete ends it at once, before any checkout. *)
Theorem checkout_branch_suppresses_only_GitCommandError s what :
  let delete := git (RepoData.git_wd registry) ["branch"; "-D"; branch] in
  env _ (trace s) delete = inl (OtherFailure what) ->
  RepoData.checkout_branch registry branch env s
  = (inl (External (OtherFailure what)), log (Ev delete (inl (OtherFailure what))) s).
Proof.
  intros delete D. unfold RepoData.checkout_branch.
  rewrite bind_suppress_call_. fold delete. rewrite D. reflexivity.
Qed.

End NotSuppressed.

(** ** Adding a skill to the registry *)

Lemma unpack4_ok fields t :
  AddToRepo.unpack4 fields = inr t ->
  length fields = 4 /\ nth 3 fields EmptyString = snd t.
Proof.
  destruct fields as [|a [|b [|c [|d [|e rest]]]]]; cbn; try discriminate.
  intros [= <-]. auto.
Qed.

Lemma unpack4_error fields err :
  AddToRepo.unpack4 fields = inl err -> length fields <> 4.
Proof.
  destruct fields as [|a [|b [|c [|d [|e rest]]]]]; cbn; intros; discriminate.
Qed.

(** X21: the folders are read when, and only when, every line holds exactly
    four fields; the folder of a line is its fourth field. *)
Theorem existing_mods_reads_fourth_fields elements folders :
  AddToRepo.existing_mods elements = inr folders <->
  Forall (fun fields => length fields = 4) elements
  /\ folders = map (fun fields => nth 3 fields EmptyString) elements.
Proof.
  revert folders. induction elements as [|fields rest IH]; intros folders.
  - cbn. split; [intros [= <-]; auto | intros [_ ->]; reflexivity].
  - cbn [AddToRepo.existing_mods map]. rewrite Forall_cons_iff.
    destruct (AddToRepo.unpack4 fields) as [err|[[[size typ] sha] folder]] eqn:U.
    + apply unpack4_error in U. split; [discriminate | tauto].
    + apply unpack4_ok in U. destruct U as [Len Nth]. cbn in Nth.
      destruct (AddToRepo.existing_mods rest) as [err|fs].
      * split; [discriminate|]. intros [[_ F] _].
        discriminate (proj2 (IH _) (conj F eq_refl)).
      * specialize (IH fs). destruct (proj1 IH eq_refl) as [F ->]. split.
        -- intros [= <-]. rewrite Nth. auto.
        -- intros [_ ->]. rewrite Nth. reflexivity.
Qed.

Lemma existing_mods_error elements err :
  AddToRepo.existing_mods elements = inl err ->
  exists fields, In fields elements /\ length fields <> 4.
Proof.
  induction elements as [|fields rest IH]; [discriminate|].
  cbn [AddToRepo.existing_mods].
  destruct (AddToRepo.unpack4 fields) as [err0|[[[size typ] sha] folder]] eqn:U.
  - intros _. exists fields. split; [left; reflexivity | eapply unpack4_error, U].
  - destruct (AddToRepo.existing_mods rest) as [err0|fs]; [|discriminate].
    intros [= <-]. destruct (IH eq_refl) as (fields0 & I & Len).
    exists fields0. split; [right; exact I | exact Len].
Qed.

Section AddToRepo.
Variables (env : Env) (self : SkillData.t).
Let registry := SkillData.msminfo self.
Let n := name (SkillData.entry self).
Let rp := repo_path registry.
Let tree := git (path (SkillData.entry self)) ["ls-tree"; "HEAD"].

(** X22: when the unpacking raises [ValueError], some line of the tree
    listing does not split into exactly four fields, and [add_to_repo] has
    only refreshed the registry and listed the tree: nothing was added,
    staged or committed. *)
Theorem add_to_repo_value_error err :
  let out := run (AddToRepo.add_to_repo self) env in
  fst out = inr (inl err) ->
  exists u lines,
    trace (snd out) = [Ev (repo_update registry) (inr u); Ev tree (inr lines)]
    /\ exists fields,
        In fields (map AddToRepo.split_ws (Py.split Py.nl_char lines))
        /\ length fields <> 4.
Proof.
  post env. unfold AddToRepo.add_to_repo, RepoData.checkout_branch, RepoData.git_wd.
  fold registry rp tree. change (SkillData.name self) with n.
  do 2 advance env.
  match goal with
  | |- context [AddToRepo.existing_mods ?e] =>
      destruct (AddToRepo.existing_mods e) as [err0|folders] eqn:E
  end.
  - rewrite ret_run. subst Post. cbn. intros _. eexists _, _. split; [reflexivity|].
    eapply existing_mods_error, E.
  - match goal with
    | |- context [Py.list_in ?x ?l] => destruct (Py.list_in x l) eqn:I
    end; tidy.
    all: repeat advance env.
    all: subst Post; cbn; discriminate.
Qed.



End AddToRepo.

(** ** The memoized submodule path *)

Section Memoized.
Variables (env : Env) (self : SkillData.t).

(** X20: with the submodule path memoized, [init_existing] followed by
    [upgrade] lists the registry at most once; when the sequence returns,
    the listing is its first call and no later one. *)
Theorem upgrade_after_init_existing_lists_once :
  let out := run (SkillData.init_existing self ;;; SkillData.upgrade self) env in
  length (registry_listings (trace (snd out))) <= 1
  /\ (forall branch, fst out = inr branch ->
      exists data rest,
        trace (snd out) = Ev (listing_call (SkillData.msminfo self)) (inr data) :: rest
        /\ registry_listings rest = []).
Proof.
  post env. unfold SkillData.init_existing, SkillData.upgrade, SkillData.repo_git,
    SkillData.submodule_name, RepoData.checkout_branch, RepoData.git_wd.
  assert (forall f s, length (registry_listings (trace s)) <= 1 ->
                      Post (inl (External f), s)) as Ext.
  { intros f s Le. subst Post. cbn. split; [exact Le | discriminate]. }
  do 2 (advance env; try (apply Ext; cbn; lia)).
  match goal with
  | |- context [name_to_path ?l !! ?n] => destruct (name_to_path l !! n) as [sub|] eqn:L
  end.
  2:{ rewrite raise_run. subst Post. cbn. split; [lia | discriminate]. }
  repeat (advance env; try (apply Ext; cbn; lia)).
  all: match goal with
       | |- context [Py.truthy ?d] => destruct (Py.truthy d) eqn:T
       end; tidy.
  all: repeat (advance env; try (apply Ext; cbn; lia)).
  all: try match goal with
       | |- context [Py.truthy ?d] =>
           lazymatch goal with
           | _ : Py.truthy d = _ |- _ => fail
           | _ => destruct (Py.truthy d) eqn:T'
           end
       end; tidy.
  all: repeat (advance env; try (apply Ext; cbn; lia)).
  all: subst Post; cbn; (split; [lia|]); try discriminate.
  all: intros branch _; eexists _, _; split; reflexivity.
Qed.

End Memoized.

Section EmptyTree.
Variables (env : Env) (self : SkillData.t).

(** X23: when the tree listing is empty, as for a skill without a commit
    holding a file, splitting it yields one empty line, which unpacks into
    no value: [add_to_repo] raises [ValueError] after refreshing the
    registry and listing the tree, and does nothing else. *)
Theorem add_to_repo_empty_tree u :
  let refresh := repo_update (SkillData.msminfo self) in
  let tree := git (path (SkillData.entry self)) ["ls-tree"; "HEAD"] in
  env _ [] refresh = inr u ->
  env _ [Ev refresh (inr u)] tree = inr EmptyString ->
  run (AddToRepo.add_to_repo self) env
  = (inr (inl (AddToRepo.not_enough_values 4 0)),
     after [Ev refresh (inr u); Ev tree (inr EmptyString)]).
Proof.
  intros refresh tree U T. unfold run, AddToRepo.add_to_repo.
  rewrite bind_call. cbn [trace st0]. fold refresh. rewrite U.
  rewrite bind_call. cbn [trace log st0 app]. fold tree. rewrite T.
  reflexivity.
Qed.

End EmptyTree.

(** ** These properties at work on example runs *)

Lemma init_takes_first_local_match_witness :
  let action := {| UpgradeAction.skill := Script.weather;
                   UpgradeAction.repo := Script.registry |} in
  UpgradeAction.repo action = Script.registry
  /\ exists before later,
      MoreExamples.installed = (before ++ UpgradeAction.skill action :: later)%list
      /\ Forall (fun skill =>
                   is_local skill = false
                   \/ MoreExamples.samefile (path skill)
                        "/opt/mycroft/skills/skill-weather" = inr false) before
      /\ is_local (UpgradeAction.skill action) = true
      /\ MoreExamples.samefile (path (UpgradeAction.skill action))
           "/opt/mycroft/skills/skill-weather" = inr true.
Proof.
  apply (init_takes_first_local_match
           MoreExamples.samefile Script.registry "/opt/mycroft/skills/skill-weather"
           MoreExamples.installed).
  reflexivity.
Defined.

Lemma load_git_repos_returns_witness :
  exists data sub o,
    name_to_path data !! "skill-weather" = Some sub
    /\ "/opt/mycroft/.skills-repo" = repo_path Script.registry
    /\ Examples.skill_git = Py.path_join (repo_path Script.registry) sub
    /\ trace (snd (run (UpgradeAction.load_git_repos Examples.action) Examples.upgradable))
       = [Ev (listing_call Script.registry) (inr data);
          Ev (git (repo_path Script.registry) ["submodule"; "update"; "--init"; sub])
             (inr o)].
Proof.
  apply (load_git_repos_returns Examples.upgradable Examples.action
           "/opt/mycroft/.skills-repo" Examples.skill_git).
  reflexivity.
Defined.

Lemma perform_local_upgrade_returns_witness :
  let repo_git := repo_path Script.registry in
  let skill_git := Examples.skill_git in
  let branch := "upgrade/skill-weather" in
  let out := run (UpgradeAction.perform_local_upgrade
                    Examples.action repo_git skill_git) Examples.upgradable in
  branch = "upgrade/" ++ name Script.weather
  /\ exists o1 o2 ref o4 a5 o6 d o8 o9,
      trace (snd out)
      = [Ev (git repo_git ["reset"]) (inr o1);
         Ev (git skill_git ["fetch"]) (inr o2);
         Ev (git skill_git ["symbolic-ref"; "refs/remotes/origin/HEAD"]) (inr ref);
         Ev (git skill_git ["reset"; "--hard"; ref]) (inr o4);
         Ev (git repo_git ["branch"; "-D"; branch]) a5;
         Ev (git repo_git ["checkout"; "-b"; branch]) (inr o6);
         Ev (git repo_git ["diff"; skill_git]) (inr d);
         Ev (git repo_git ["add"; skill_git]) (inr o8);
         Ev (git repo_git ["commit"; "--message=Upgrade " ++ name Script.weather])
            (inr o9)]
      /\ Py.truthy d = true
      /\ (a5 = inl GitCommandError \/ exists o5, a5 = inr o5).
Proof.
  apply (perform_local_upgrade_returns Examples.upgradable Examples.action
           (repo_path Script.registry) Examples.skill_git "upgrade/skill-weather").
  reflexivity.
Defined.

Lemma create_pr_message_fails_only_externally_witness :
  exists f, External (OtherFailure "GitCommandNotFound") = External f.
Proof.
  apply (create_pr_message_fails_only_externally
           MoreExamples.no_git "0.3.1" Examples.action Examples.skill_git
           Runs.skill_repo (External (OtherFailure "GitCommandNotFound"))
           (after [Ev (rev_list_call Script.weather Examples.skill_git)
                      (inl (OtherFailure "GitCommandNotFound"))])).
  reflexivity.
Defined.

Lemma create_pr_message_follows_rev_list_witness :
  exists title body s',
    Runs.message Examples.upgradable = (inr (title, body), s')
    /\ show_shas (trace s') = ["def456"; "987fff"]
    /\ commit_shas (trace s') = ["def456"; "987fff"].
Proof.
  destruct (Runs.message Examples.upgradable) as [[e|[title body]] s'] eqn:R.
  - vm_compute in R. discriminate R.
  - exists title, body, s'. split; [reflexivity|].
    destruct (create_pr_message_follows_rev_list
                Examples.upgradable "0.3.1" Examples.action Examples.skill_git
                Runs.skill_repo title body s' R) as (_ & out & O & S & C & _).
    rewrite S, C. vm_compute in R. injection R as _ _ <-.
    vm_compute in O. injection O as <-. split; reflexivity.
Defined.

Lemma setup_fork_chooses_command_witness :
  exists command a,
    trace (snd (run (UpgradeAction.setup_fork (repo_path Script.registry)
                       Examples.me Script.some_repo) MoreExamples.fork_known))
    = [Ev (create_fork Examples.me Script.some_repo)
          (inr (Script.succeed (create_fork Examples.me Script.some_repo)));
       Ev (git (repo_path Script.registry) ["remote"])
          (inr ("origin" ++ Py.nl ++ "fork"));
       Ev (git (repo_path Script.registry)
               ["remote"; command; "fork"; "https://github.com/dev/mycroft-skills"]) a]
    /\ (command = "set-url" /\ In "fork" (Py.split Py.nl_char ("origin" ++ Py.nl ++ "fork"))
        \/ command = "add"
           /\ ~ In "fork" (Py.split Py.nl_char ("origin" ++ Py.nl ++ "fork"))).
Proof.
  apply (setup_fork_chooses_command MoreExamples.fork_known
           (repo_path Script.registry) Examples.me Script.some_repo
           (Script.succeed (create_fork Examples.me Script.some_repo))
           ("origin" ++ Py.nl ++ "fork"));
    reflexivity.
Defined.

Lemma push_to_fork_ignores_exit_code_witness :
  fst (run (UpgradeAction.push_to_fork Examples.action "upgrade/skill-weather")
           MoreExamples.push_rejected) = inr tt.
Proof.
  rewrite (push_to_fork_ignores_exit_code MoreExamples.push_rejected Examples.action
             "upgrade/skill-weather" tt 1%Z eq_refl eq_refl).
  reflexivity.
Defined.

Lemma create_or_edit_pr_creates_when_none_witness :
  fst (Runs.reconcile Examples.upgradable)
  = inr {| number := 1; pr_title := "Upgrade skill-weather";
           github.body := Some "This upgrades skill-weather";
           pr_html_url := "https://github.com/MycroftAI/mycroft-skills/pull/1" |}.
Proof.
  unfold Runs.reconcile.
  rewrite (create_or_edit_pr_creates_when_none Examples.upgradable
             "Upgrade skill-weather" "This upgrades skill-weather" Script.some_repo
             Examples.me "upgrade/skill-weather" eq_refl).
  reflexivity.
Defined.

Lemma perform_unregistered_witness :
  exists u data,
    trace (snd (run (UpgradeAction.perform "0.3.1" Examples.action) MoreExamples.unlisted))
    = [Ev (repo_update Script.registry) (inr u);
       Ev (listing_call Script.registry) (inr data)]
    /\ ~ In "skill-weather" (map tuple_name data).
Proof.
  apply (perform_unregistered MoreExamples.unlisted "0.3.1" Examples.action
           (not_uploaded_message "skill-weather")).
  vm_compute. reflexivity.
Defined.




Lemma checkout_branch_suppresses_only_GitCommandError_witness :
  fst (RepoData.checkout_branch Script.registry "upgrade/skill-weather"
         MoreExamples.no_git st0)
  = inl (External (OtherFailure "GitCommandNotFound")).
Proof.
  rewrite (checkout_branch_suppresses_only_GitCommandError MoreExamples.no_git
             Script.registry "upgrade/skill-weather" st0 "GitCommandNotFound" eq_refl).
  reflexivity.
Defined.


Lemma upgrade_unregistered_witness :
  exists data,
    snd (run (SkillData.upgrade Examples.skill_data) MoreExamples.unlisted)
    = after [Ev (listing_call Script.registry) (inr data)]
    /\ ~ In "skill-weather" (map tuple_name data).
Proof.
  apply (upgrade_unregistered MoreExamples.unlisted Examples.skill_data
           (not_uploaded_message "skill-weather")).
  vm_compute. reflexivity.
Defined.

Lemma add_to_repo_value_error_witness :
  exists u lines,
    trace (snd (run (AddToRepo.add_to_repo Examples.skill_data)
                    (MoreExamples.tree_of MoreExamples.spaced_tree)))
    = [Ev (repo_update Script.registry) (inr u);
       Ev (git (path Script.weather) ["ls-tree"; "HEAD"]) (inr lines)]
    /\ exists fields,
        In fields (map AddToRepo.split_ws (Py.split Py.nl_char lines))
        /\ length fields <> 4.
Proof.
  apply (add_to_repo_value_error (MoreExamples.tree_of MoreExamples.spaced_tree)
           Examples.skill_data (AddToRepo.too_many_values 4)).
  vm_compute. reflexivity.
Defined.

Lemma add_to_repo_empty_tree_witness :
  fst (run (AddToRepo.add_to_repo Examples.skill_data) (MoreExamples.tree_of EmptyString))
  = inr (inl (AddToRepo.not_enough_values 4 0)).
Proof.
  rewrite (add_to_repo_empty_tree (MoreExamples.tree_of EmptyString)
             Examples.skill_data tt eq_refl eq_refl).
  reflexivity.
Defined.

